(** * SWE-ReX: the terminal session engine and its remote client

    A shallow embedding of [runtime.py] (classes [Session] and [Runtime]) and of
    [swerex/runtime/remote.py] (class [RemoteRuntime]), followed by the
    properties of the specification that concern them.

    Python objects with mutable fields become records threaded through a
    state-and-exception monad; everything the code cannot decide by itself (what
    the spawned shell answers, what the HTTP server answers, which temporary
    name the operating system hands out) is an explicit part of the state, so
    that every definition below evaluates on concrete inputs. *)

From Stdlib Require QArith_base.
From stdpp Require Import gmap strings list pretty.

Abbreviation Q := QArith_base.Q.

Local Open Scope string_scope.
Local Open Scope list_scope.

(** ** Python strings

    Strings are restricted to ASCII text.  [isspace] is [str.isspace] on code
    points below 128. *)

Definition isspace (c : Ascii.ascii) : bool :=
  let n := Ascii.nat_of_ascii c in
  (((9 <=? n) && (n <=? 13)) || ((28 <=? n) && (n <=? 32)))%nat.

Fixpoint lstrip (s : string) : string :=
  match s with
  | String c s' => if isspace c then lstrip s' else s
  | EmptyString => EmptyString
  end.

Definition rstrip (s : string) : string := String.rev (lstrip (String.rev s)).

Definition strip (s : string) : string := rstrip (lstrip s).

Fixpoint string_drop (n : nat) (s : string) : string :=
  match n, s with
  | S n', String _ s' => string_drop n' s'
  | _, _ => s
  end.

Fixpoint string_take (n : nat) (s : string) : string :=
  match n, s with
  | S n', String c s' => String c (string_take n' s')
  | _, _ => EmptyString
  end.

Definition removeprefix (p s : string) : string :=
  if String.prefix p s then string_drop (String.length p) s else s.

(** [s.rpartition(".")]: the text before the last dot, the separator found (or
    the empty string), the text after it. *)
Fixpoint rpartition_dot (s : string) : option (string * string) :=
  match s with
  | EmptyString => None
  | String c s' =>
      match rpartition_dot s' with
      | Some (h, t) => Some (String c h, t)
      | None => if Ascii.eqb c (Ascii.ascii_of_nat 46) then Some (EmptyString, s') else None
      end
  end.

Definition rpartition (s : string) : string * string * string :=
  match rpartition_dot s with
  | Some (h, t) => (h, ".", t)
  | None => ("", "", s)
  end.

(** ** Python exceptions

    A class is known by its qualified name and the names of all its proper
    ancestors; [isinstance] is what an [except C:] clause tests. *)

Record exc_class := ExcClass { cls_name : string; cls_bases : list string }.

Record exc := Exc { exc_type : exc_class; exc_arg : string }.

Definition isinstance (e : exc) (c : exc_class) : bool :=
  bool_decide (cls_name c = cls_name (exc_type e) ∨ cls_name c ∈ cls_bases (exc_type e)).

Definition BaseException := ExcClass "BaseException" [].
Definition Exception := ExcClass "Exception" ["BaseException"].
Definition KeyboardInterrupt := ExcClass "KeyboardInterrupt" ["BaseException"].
Definition AssertionError := ExcClass "AssertionError" ["Exception"; "BaseException"].
Definition AttributeError := ExcClass "AttributeError" ["Exception"; "BaseException"].
Definition TypeError := ExcClass "TypeError" ["Exception"; "BaseException"].
Definition KeyError :=
  ExcClass "KeyError" ["LookupError"; "Exception"; "BaseException"].
Definition IndexError :=
  ExcClass "IndexError" ["LookupError"; "Exception"; "BaseException"].
Definition FileNotFoundError :=
  ExcClass "FileNotFoundError" ["OSError"; "Exception"; "BaseException"].

(** ** A state and exception monad

    [M S A] is a Python method body over an object of state [S]: it ends by
    returning a value ([inr]) or by raising ([inl]), and leaves a new state
    either way. *)

Definition M (S A : Type) : Type := S → (exc + A) * S.

Definition ret {S A} (a : A) : M S A := λ s, (inr a, s).

Definition raise {S A} (e : exc) : M S A := λ s, (inl e, s).

Definition bind {S A B} (m : M S A) (k : A → M S B) : M S B :=
  λ s, match m s with
       | (inr a, s') => k a s'
       | (inl e, s') => (inl e, s')
       end.

(** [attempt m] runs [m] as the body of a [try]: the exception, if any, is
    handed to the caller as a value. *)
Definition attempt {S A} (m : M S A) : M S (exc + A) :=
  λ s, let '(r, s') := m s in (inr r, s').

Definition get {S} : M S S := λ s, (inr s, s).

Definition put {S} (s : S) : M S unit := λ _, (inr tt, s).

Declare Scope py_scope.
Delimit Scope py_scope with py.
Notation "x <- m ;; k" := (bind m (λ x, k))
  (at level 100, m at next level, right associativity) : py_scope.
Notation "m ;;; k" := (bind m (λ _, k))
  (at level 100, right associativity) : py_scope.
Local Open Scope py_scope.

(** [assert b] *)
Definition py_assert {S} (b : bool) : M S unit :=
  if b then ret tt else raise (Exc AssertionError "").

(** [l[i]] on a list *)
Definition getitem {S A} (l : list A) (i : nat) : M S A :=
  match l !! i with
  | Some x => ret x
  | None => raise (Exc IndexError "list index out of range")
  end.

Definition nl : string := String (Ascii.ascii_of_nat 10) EmptyString.

(** ** pexpect

    The child process is outside the program.  A [spawn] object carries the
    answers the child will give to the coming [expect] calls ([pending]: the
    text before the match and the index of the pattern that matched, or the
    exception raised), a [log] of what was done to it, and the [before]
    attribute.  A child with nothing pending stays silent and every wait on it
    times out.  Writes to the child are taken to succeed.  [before] is tracked
    only across successful waits, which is when the code reads it. *)

Module pexpect.

Definition TIMEOUT :=
  ExcClass "pexpect.exceptions.TIMEOUT"
    ["pexpect.exceptions.ExceptionPexpect"; "Exception"; "BaseException"].
Definition EOF :=
  ExcClass "pexpect.exceptions.EOF"
    ["pexpect.exceptions.ExceptionPexpect"; "Exception"; "BaseException"].

Inductive outcome :=
| Matched (index : nat) (text_before : string)
| Raised (e : exc).

Inductive event :=
| Sendline (s : string)
| Expect (patterns : list string) (timeout : Q)
| Setecho (state : bool)
| Waitnoecho
| Close.

Record spawn := Spawn {
  log : list event;
  pending : list outcome;
  before : option string
}.

Definition record (ev : event) : M spawn unit :=
  λ sh, (inr tt, Spawn (log sh ++ [ev]) (pending sh) (before sh)).

Definition sendline (s : string) : M spawn unit := record (Sendline s).
Definition setecho (state : bool) : M spawn unit := record (Setecho state).
Definition waitnoecho : M spawn unit := record Waitnoecho.
Definition close : M spawn unit := record Close.

Definition expect (patterns : list string) (timeout : Q) : M spawn nat :=
  λ sh,
    let log' := log sh ++ [Expect patterns timeout] in
    match pending sh with
    | Matched i b :: rest => (inr i, Spawn log' rest (Some b))
    | Raised e :: rest => (inl e, Spawn log' rest (before sh))
    | [] => (inl (Exc TIMEOUT "Timeout exceeded."), Spawn log' [] (before sh))
    end.

(** Reading [shell.before] where the code goes on to use it as a [str]. *)
Definition read_before : M spawn string :=
  λ sh, match before sh with
        | Some b => (inr b, sh)
        | None => (inl (Exc TypeError "before is None"), sh)
        end.

End pexpect.

(** ** The request and response models

    Modelled from the spec: [models.py], which declares these classes, is not
    among the sources.  The fields are those [runtime.py] reads and writes;
    a field the code leaves out on construction takes the empty default, and
    [CreateShellResponse.success] defaults to [true].  A failure reason is
    set when it is not the empty string. *)

Module Action.
Record t := mk {
  session : string;
  command : string;
  timeout : Q;
  expect : list string;
  is_interactive_command : bool;
  is_interactive_quit : bool
}.
End Action.

Module Observation.
Record t := mk {
  output : string;
  exit_code_raw : string;
  failure_reason : string;
  expect_string : string
}.
End Observation.

Module CreateShellResponse.
Record t := mk {
  success : bool;
  failure_reason : string;
  output : string
}.
End CreateShellResponse.

Module CreateShellRequest.
Record t := mk { name : string }.
End CreateShellRequest.

Module CloseRequest.
Record t := mk { session : string }.
End CloseRequest.

Module CloseResponse.
Inductive t := mk.
End CloseResponse.

(** ** runtime.py: class Session *)

Module Session.

Record t := mk { _ps1 : string; shell : option pexpect.spawn }.

Definition __init__ : t := mk "SHELLPS1PREFIX" None.

(** [timeout=1] *)
Definition timeout_1 : Q := QArith_base.Qmake 1 1.

(** [self.shell.m(...)]: a method call on the shell the session holds. *)
Definition on_shell {A} (m : M pexpect.spawn A) : M t A :=
  λ self,
    match shell self with
    | Some sh => let '(r, sh') := m sh in (r, mk (_ps1 self) (Some sh'))
    | None => (inl (Exc AttributeError "'NoneType' object has no attribute"), self)
    end.

(** [except pexpect.TIMEOUT: return v] *)
Definition except_TIMEOUT {A} (e : exc) (v : A) : M t A :=
  if isinstance e pexpect.TIMEOUT then ret v else raise e.

(** [spawned] is what [pexpect.spawn("/bin/bash", encoding="utf-8",
    echo=False)] gives: the new child, or the exception it raises. *)
Definition start (spawned : exc + pexpect.spawn)
    : M t CreateShellResponse.t :=
  self <- get ;;
  match spawned with
  | inl e => raise e
  | inr child =>
    put (mk (_ps1 self) (Some child)) ;;;
    on_shell (pexpect.sendline "echo 'fully_initialized'") ;;;
    r <- attempt (on_shell (pexpect.expect ["fully_initialized"] timeout_1)) ;;
    match r with
    | inl e =>
        except_TIMEOUT e
          (CreateShellResponse.mk false "timeout while initializing shell" "")
    | inr _ =>
      output <- on_shell pexpect.read_before ;;
      on_shell (pexpect.sendline
        ("umask 002; export PS1='" +:+ _ps1 self +:+ "'; export PS2=''")) ;;;
      r <- attempt (on_shell (pexpect.expect [_ps1 self] timeout_1)) ;;
      match r with
      | inl e =>
          except_TIMEOUT e
            (CreateShellResponse.mk false "timeout while setting PS1" "")
      | inr _ =>
        b <- on_shell pexpect.read_before ;;
        ret (CreateShellResponse.mk true "" (output +:+ nl +:+ "---" +:+ nl +:+ b))
      end
    end
  end.

Definition run (action : Action.t) : M t Observation.t :=
  self <- get ;;
  match shell self with
  | None => ret (Observation.mk "" "-300" "shell not initialized" "")
  | Some _ =>
    on_shell (pexpect.sendline (Action.command action)) ;;;
    let expect_strings := Action.expect action ++ [_ps1 self] in
    r <- attempt
           (expect_index <- on_shell (pexpect.expect expect_strings
                                        (Action.timeout action)) ;;
            getitem expect_strings expect_index) ;;
    match r with
    | inl e =>
        except_TIMEOUT e
          (Observation.mk "" "-100" "timeout while running command" "")
    | inr expect_string =>
      output <- on_shell pexpect.read_before ;;
      if negb (Action.is_interactive_command action)
         && negb (Action.is_interactive_quit action)
      then
        on_shell (pexpect.sendline (nl +:+ "echo $?")) ;;;
        r <- attempt (on_shell (pexpect.expect [_ps1 self] timeout_1)) ;;
        match r with
        | inl e =>
            except_TIMEOUT e
              (Observation.mk "" "-200" "timeout while getting exit code" "")
        | inr _ =>
          b <- on_shell pexpect.read_before ;;
          let exit_code_raw := strip b in
          exit_code_raw <-
            (if String.eqb (strip exit_code_raw) ""
             then
               on_shell (pexpect.expect [_ps1 self] timeout_1) ;;;
               b <- on_shell pexpect.read_before ;;
               ret (strip b)
             else ret exit_code_raw) ;;
          ret (Observation.mk output exit_code_raw "" expect_string)
        end
      else if Action.is_interactive_quit action then
        py_assert (negb (Action.is_interactive_command action)) ;;;
        let exit_code_raw := "0" in
        on_shell (pexpect.setecho false) ;;;
        on_shell pexpect.waitnoecho ;;;
        on_shell (pexpect.sendline
          "stty -echo; echo 'doneremovingecho'; echo 'doneremovingecho'") ;;;
        on_shell (pexpect.expect ["doneremovingecho"] timeout_1) ;;;
        on_shell (pexpect.expect [_ps1 self] timeout_1) ;;;
        ret (Observation.mk output exit_code_raw "" expect_string)
      else
        let output :=
          strip (removeprefix (Action.command action) (lstrip output)) in
        let exit_code_raw := "0" in
        ret (Observation.mk output exit_code_raw "" expect_string)
    end
  end.

Definition close : M t CloseResponse.t :=
  self <- get ;;
  match shell self with
  | None => ret CloseResponse.mk
  | Some _ =>
    on_shell pexpect.close ;;;
    put (mk (_ps1 self) None) ;;;
    ret CloseResponse.mk
  end.

End Session.

(** ** runtime.py: class Runtime *)

Module Runtime.

Record t := mk { sessions : gmap string Session.t }.

Definition __init__ : t := mk ∅.

(** [name in self.sessions] *)
Definition contains (self : t) (name : string) : bool :=
  match sessions self !! name with Some _ => true | None => false end.

(** [self.sessions[name].m(...)]: the dictionary holds the session object
    itself, so what the method does to the session is seen by every later
    lookup, whether the method returns or raises. *)
Definition on_session {A} (name : string) (m : M Session.t A) : M t A :=
  λ self,
    match sessions self !! name with
    | Some s => let '(r, s') := m s in (r, mk (<[name := s']> (sessions self)))
    | None => (inl (Exc KeyError name), self)
    end.

Definition create_shell (spawned : exc + pexpect.spawn)
    (request : CreateShellRequest.t) : M t CreateShellResponse.t :=
  self <- get ;;
  py_assert (negb (contains self (CreateShellRequest.name request))) ;;;
  let shell := Session.__init__ in
  put (mk (<[CreateShellRequest.name request := shell]> (sessions self))) ;;;
  on_session (CreateShellRequest.name request) (Session.start spawned).

Definition run (action : Action.t) : M t Observation.t :=
  on_session (Action.session action) (Session.run action).

Definition close (request : CloseRequest.t) : M t CloseResponse.t :=
  out <- on_session (CloseRequest.session request) Session.close ;;
  self <- get ;;
  put (mk (delete (CloseRequest.session request) (sessions self))) ;;;
  ret out.

End Runtime.

(** ** pathlib, the file system and the interpreter's module table

    A [path] is the list of components pathlib parses a path string to; the
    empty list is the directory every path is relative to ([Path(".")]).  A
    file holds bytes or, when [shutil.make_archive] wrote it, the members it
    bundled. *)

Abbreviation path := (list string).

#[local] Set Warnings "-register-all".

Inductive content :=
| Bytes (s : string)
| Archive (members : list (path * content)).

Inductive node :=
| File (c : content)
| Dir.

(** An attribute of an imported module: an exception class, or anything
    else, for which [raise obj(message)] ends in the exception given. *)
Inductive pyobj :=
| PyExceptionClass (c : exc_class)
| PyOther (e : exc).

Module pathlib.

(** [p.name] *)
Definition name (p : path) : string := default "" (last p).

(** [p / child] *)
Definition joinpath (p : path) (child : string) : path := p ++ [child].

(** The suffix of a final component: [name[i:]] for [i = name.rfind(".")]
    when [0 < i < len(name) - 1], else empty. *)
Definition suffix_of (name : string) : string :=
  match rpartition_dot name with
  | Some (h, t) =>
      if String.eqb h "" || String.eqb t "" then "" else "." +:+ t
  | None => ""
  end.

(** [name[:-len(old_suffix)]] *)
Definition drop_suffix (name : string) : string :=
  string_take (String.length name - String.length (suffix_of name)) name.

(** [p.with_suffix("")], for [p] with a non-empty name *)
Definition with_suffix_empty (p : path) : path :=
  match last p with
  | Some name =>
      removelast p ++
        [if String.eqb (suffix_of name) "" then name else drop_suffix name]
  | None => p
  end.

End pathlib.

(** ** requests and the models of swerex.runtime.abstract

    Modelled from the spec: [swerex/runtime/abstract.py], which declares
    [IsAliveResponse], [_ExceptionTransfer], [UploadRequest], [UploadResponse]
    and [SweRexception], is not among the sources.  The fields are those of the
    wire protocol: [{is_alive, message}] and [{class_path, message,
    traceback}]; [SweRexception] is an ordinary exception class.

    A response is seen through the expressions the client evaluates on it:
    each is a field holding the value of that expression, or the exception
    it raises (a body that is not JSON, a missing key, a failed validation). *)

Module IsAliveResponse.
Record t := mk { is_alive : bool; message : string }.
End IsAliveResponse.

Module ExceptionTransfer.
Record t := mk { message : string; class_path : string; traceback : string }.
End ExceptionTransfer.

Module UploadRequest.
Record t := mk { source_path : path; target_path : string }.
End UploadRequest.

Module UploadResponse.
Inductive t := mk.
End UploadResponse.

Definition SweRexception :=
  ExcClass "swerex.runtime.abstract.SweRexception" ["Exception"; "BaseException"].

Module requests.

Definition RequestException :=
  ExcClass "requests.exceptions.RequestException"
    ["OSError"; "Exception"; "BaseException"].
Definition ConnectionError :=
  ExcClass "requests.exceptions.ConnectionError"
    ["requests.exceptions.RequestException"; "OSError"; "Exception";
     "BaseException"].
Definition HTTPError :=
  ExcClass "requests.exceptions.HTTPError"
    ["requests.exceptions.RequestException"; "OSError"; "Exception";
     "BaseException"].

Record Response := mkResponse {
  status_code : Z;
  (** [IsAliveResponse] built from the keys of [response.json()] *)
  as_IsAliveResponse : exc + IsAliveResponse.t;
  (** [_ExceptionTransfer] built from the keys of
      [response.json()['swerexception']] *)
  as_ExceptionTransfer : exc + ExceptionTransfer.t;
  (** [response.json().get('message')], formatted *)
  get_message : exc + string;
  (** [UploadResponse] built from the keys of [response.json()] *)
  as_UploadResponse : exc + UploadResponse.t
}.

(** What was put on the wire. *)
Inductive request :=
| Get (url : string) (timeout : option Q)
| PostUpload (url : string) (file : content) (target_path unzip : string).

End requests.

(** The world the remote client acts on: [sys.modules], the local file
    system, the names [tempfile] will hand out, the error [make_archive] will
    meet if any, the answers the network will give to the coming requests
    (with nothing pending the host is unreachable), and the trace of what
    the client did. *)

Inductive io_event :=
| Mkdtemp (p : path)
| MakeArchive (base_name root_dir : path)
| Sent (r : requests.request)
| Rmtree (p : path).

Record World := mkWorld {
  modules : gmap string (gmap string pyobj);
  fs : gmap path node;
  tempnames : list path;
  archive_fault : option exc;
  replies : list (exc + requests.Response);
  trace : list io_event
}.

Definition lift {S A} (r : exc + A) : M S A := λ s, (r, s).

Definition set_fs (f : gmap path node → gmap path node) : M World unit :=
  λ w, (inr tt, mkWorld (modules w) (f (fs w)) (tempnames w) (archive_fault w)
                  (replies w) (trace w)).

Definition emit (ev : io_event) : M World unit :=
  λ w, (inr tt, mkWorld (modules w) (fs w) (tempnames w) (archive_fault w)
                  (replies w) (trace w ++ [ev])).

(** One round trip: the request goes on the trace, the next pending answer
    comes back. *)
Definition round_trip (r : requests.request) : M World requests.Response :=
  λ w,
    let tr := trace w ++ [Sent r] in
    match replies w with
    | reply :: rest =>
        (reply, mkWorld (modules w) (fs w) (tempnames w) (archive_fault w) rest tr)
    | [] =>
        (inl (Exc requests.ConnectionError "Max retries exceeded"),
         mkWorld (modules w) (fs w) (tempnames w) (archive_fault w) [] tr)
    end.

(** [response.raise_for_status()] *)
Definition raise_for_status (response : requests.Response) : M World unit :=
  if ((400 <=? requests.status_code response)
      && (requests.status_code response <? 600))%Z
  then raise (Exc requests.HTTPError (pretty (requests.status_code response)))
  else ret tt.

(** [p.is_dir()] *)
Definition is_dir (w : World) (p : path) : bool :=
  match fs w !! p with Some Dir => true | _ => false end.

(** [p.open("rb")], read in full when the request body is built *)
Definition open_rb (p : path) : M World content :=
  λ w, match fs w !! p with
       | Some (File c) => (inr c, w)
       | Some Dir => (inl (Exc (ExcClass "IsADirectoryError"
                                  ["OSError"; "Exception"; "BaseException"])
                             (pathlib.name p)), w)
       | None => (inl (Exc FileNotFoundError (pathlib.name p)), w)
       end.

(** The files below [root], by their paths relative to it. *)
Definition members_of (files : gmap path node) (root : path)
    : list (path * content) :=
  omap (λ kv, match kv.2 with
              | File c =>
                  if bool_decide (root `prefix_of` kv.1)
                  then Some (drop (length root) kv.1, c) else None
              | Dir => None
              end)
       (map_to_list files).

(** [shutil.make_archive(base_name, "zip", root_dir)] writes
    [base_name + ".zip"]. *)
Definition make_archive (base_name root_dir : path) : M World unit :=
  w <- get ;;
  emit (MakeArchive base_name root_dir) ;;;
  match archive_fault w with
  | Some e => raise e
  | None =>
      set_fs (insert
        (removelast base_name ++ [pathlib.name base_name +:+ ".zip"])
        (File (Archive (members_of (fs w) root_dir))))
  end.

(** [with tempfile.TemporaryDirectory() as temp_dir: body]: the directory is
    made under the next name handed out, and removed with all it holds when
    the block is left, by return or by exception. *)
Definition with_TemporaryDirectory {A} (body : path → M World A) : M World A :=
  λ w,
    match tempnames w with
    | [] => (inl (Exc (ExcClass "FileExistsError"
                         ["OSError"; "Exception"; "BaseException"])
                    "No usable temporary directory name found"), w)
    | temp_dir :: rest =>
        let w1 := mkWorld (modules w) (<[temp_dir := Dir]> (fs w)) rest
                    (archive_fault w) (replies w) (trace w ++ [Mkdtemp temp_dir]) in
        let '(r, w2) := body temp_dir w1 in
        (r, mkWorld (modules w2)
              (filter (λ kv, ¬ temp_dir `prefix_of` kv.1) (fs w2))
              (tempnames w2) (archive_fault w2) (replies w2)
              (trace w2 ++ [Rmtree temp_dir]))
    end.

(** [traceback.format_exc()] in a handler of [e]; logging is left out. *)
Definition format_exc (e : exc) : string :=
  "Traceback (most recent call last):" +:+ nl
  +:+ cls_name (exc_type e) +:+ ": " +:+ exc_arg e +:+ nl.

(** ** swerex/runtime/remote.py: class RemoteRuntime *)

Module RemoteRuntime.

Record t := mk { host : string; port : Z }.

Definition __init__ (host : string) (port : Z) : t :=
  let host := if String.prefix "http" host then host else "http://" +:+ host in
  mk host port.

Definition _api_url (self : t) : string := host self +:+ ":" +:+ pretty (port self).

Definition _handle_transfer_exception (self : t)
    (exc_transfer : ExceptionTransfer.t) : M World unit :=
  w <- get ;;
  r <- attempt
         (let '(module, _, exc_name) :=
            rpartition (ExceptionTransfer.class_path exc_transfer) in
          m <- match modules w !! module with
               | Some m => ret m
               | None => raise (Exc KeyError module)
               end ;;
          match m !! exc_name with
          | Some v => ret v
          | None => raise (Exc AttributeError exc_name)
          end) ;;
  match r with
  | inl e =>
      if isinstance e AttributeError
      then raise (Exc SweRexception (ExceptionTransfer.message exc_transfer))
      else raise e
  | inr (PyExceptionClass exception) =>
      raise (Exc exception (ExceptionTransfer.message exc_transfer))
  | inr (PyOther e) => raise e
  end.

Definition _handle_response_errors (self : t)
    (response : requests.Response) : M World unit :=
  (if (requests.status_code response =? 511)%Z
   then
     exc_transfer <- lift (requests.as_ExceptionTransfer response) ;;
     _handle_transfer_exception self exc_transfer
   else ret tt) ;;;
  raise_for_status response.

Definition is_alive (self : t) (timeout : option Q)
    : M World IsAliveResponse.t :=
  r <- attempt
         (response <- round_trip
                        (requests.Get (_api_url self +:+ "/is_alive") timeout) ;;
          if (requests.status_code response =? 200)%Z
          then lift (requests.as_IsAliveResponse response)
          else
            (if (requests.status_code response =? 511)%Z
             then
               exc_transfer <- lift (requests.as_ExceptionTransfer response) ;;
               _handle_transfer_exception self exc_transfer
             else ret tt) ;;;
            message <- lift (requests.get_message response) ;;
            let msg :=
              "Status code " +:+ pretty (requests.status_code response)
              +:+ " from " +:+ _api_url self +:+ "/is_alive. "
              +:+ "Message: " +:+ message in
            ret (IsAliveResponse.mk false msg)) ;;
  match r with
  | inr v => ret v
  | inl e =>
      if isinstance e requests.RequestException
      then
        let msg := "Failed to connect to " +:+ host self +:+ nl in
        let msg := msg +:+ format_exc e in
        ret (IsAliveResponse.mk false msg)
      else if isinstance e Exception
      then
        let msg := "Failed to connect to " +:+ host self +:+ nl in
        let msg := msg +:+ format_exc e in
        ret (IsAliveResponse.mk false msg)
      else raise e
  end.

Definition upload (self : t) (request : UploadRequest.t)
    : M World UploadResponse.t :=
  let source := UploadRequest.source_path request in
  w <- get ;;
  if is_dir w source
  then
    with_TemporaryDirectory (λ temp_dir,
      let zip_path :=
        pathlib.joinpath temp_dir (pathlib.name source +:+ ".zip") in
      make_archive (pathlib.with_suffix_empty zip_path) source ;;;
      file <- open_rb zip_path ;;
      response <- round_trip
                    (requests.PostUpload (_api_url self +:+ "/upload") file
                       (UploadRequest.target_path request) "true") ;;
      _handle_response_errors self response ;;;
      lift (requests.as_UploadResponse response))
  else
    file <- open_rb source ;;
    response <- round_trip
                  (requests.PostUpload (_api_url self +:+ "/upload") file
                     (UploadRequest.target_path request) "false") ;;
    _handle_response_errors self response ;;;
    lift (requests.as_UploadResponse response).

End RemoteRuntime.

(** ** Vocabulary of the properties *)

(** The next wait on a child times out: it is silent, or its next answer is
    a [pexpect.TIMEOUT]. *)
Definition times_out (pend : list pexpect.outcome) : bool :=
  match pend with
  | [] => true
  | pexpect.Raised e :: _ => isinstance e pexpect.TIMEOUT
  | pexpect.Matched _ _ :: _ => false
  end.

(** A normal command: neither flag is set. *)
Definition is_normal (a : Action.t) : bool :=
  negb (Action.is_interactive_command a) && negb (Action.is_interactive_quit a).

(** The three ways in which [Session.run] leaves the normal path with a
    result: no shell, the command's wait times out, the wait of the exit
    status exchange times out. *)
Definition off_normal_path (a : Action.t) (s : Session.t) : bool :=
  match Session.shell s with
  | None => true
  | Some sh =>
      match pexpect.pending sh with
      | pexpect.Matched _ _ :: rest => is_normal a && times_out rest
      | pend => times_out pend
      end
  end.

Definition is_digit (c : Ascii.ascii) : bool :=
  let n := Ascii.nat_of_ascii c in ((48 <=? n) && (n <=? 57))%nat.

(** Digits, with single underscores allowed between them. *)
Fixpoint digits_from (after_digit : bool) (s : string) : bool :=
  match s with
  | EmptyString => after_digit
  | String c s' =>
      if is_digit c then digits_from true s'
      else if Ascii.eqb c (Ascii.ascii_of_nat 95)
           then after_digit && digits_from false s'
           else false
  end.

(** [int(s)] succeeds: optional blanks around an optional sign and digits. *)
Definition parses_as_int (s : string) : bool :=
  match strip s with
  | String c s' =>
      if Ascii.eqb c (Ascii.ascii_of_nat 43) || Ascii.eqb c (Ascii.ascii_of_nat 45)
      then digits_from false s'
      else digits_from false (String c s')
  | EmptyString => false
  end.

(** The test [not exit_code_raw.strip()] on [exit_code_raw = before.strip()]. *)
Definition blank_status (text_before : string) : bool :=
  String.eqb (strip (strip text_before)) "".

Definition log_of (s : Session.t) : list pexpect.event :=
  match Session.shell s with Some sh => pexpect.log sh | None => [] end.

Definition pending_of (s : Session.t) : list pexpect.outcome :=
  match Session.shell s with Some sh => pexpect.pending sh | None => [] end.

(** The patterns [run] waits for. *)
Definition expect_strings (a : Action.t) (s : Session.t) : list string :=
  Action.expect a ++ [Session._ps1 s].

Definition uninitialized_observation : Observation.t :=
  Observation.mk "" "-300" "shell not initialized" "".

Definition command_timeout_observation : Observation.t :=
  Observation.mk "" "-100" "timeout while running command" "".

Definition exit_code_timeout_observation : Observation.t :=
  Observation.mk "" "-200" "timeout while getting exit code" "".

(** ** Scenarios *)

Module Scenario.

Definition child (answers : list pexpect.outcome) : pexpect.spawn :=
  pexpect.Spawn [] answers None.

Definition action (command : string) : Action.t :=
  Action.mk "main" command (QArith_base.Qmake 1 1) [] false false.

(** A session whose shell answered both exchanges of [start] and then
    [answers]. *)
Definition started (answers : list pexpect.outcome) : Session.t :=
  (Session.start
     (inr (child (pexpect.Matched 0 "" :: pexpect.Matched 0 "" :: answers)))
     Session.__init__).2.

(** A session whose shell never answered [start]. *)
Definition failed_start : Session.t :=
  (Session.start (inr (child [])) Session.__init__).2.

(** A registry on which [create_shell] of ["main"] met a silent shell. *)
Definition registry_failed_start : Runtime.t :=
  (Runtime.create_shell (inr (child [])) (CreateShellRequest.mk "main")
     Runtime.__init__).2.

Definition a_timeout : exc := Exc pexpect.TIMEOUT "Timeout exceeded.".

End Scenario.

(** The request [upload] puts on the wire. *)
Definition upload_post (self : RemoteRuntime.t) (request : UploadRequest.t)
    (file : content) (unzip : string) : requests.request :=
  requests.PostUpload (RemoteRuntime._api_url self +:+ "/upload") file
    (UploadRequest.target_path request) unzip.

(** The steps both branches of [upload] end with: the round trip, the check
    of the response, the decoding of the result. *)
Definition deliver (self : RemoteRuntime.t) (q : requests.request)
    : M World UploadResponse.t :=
  response <- round_trip q ;;
  RemoteRuntime._handle_response_errors self response ;;;
  lift (requests.as_UploadResponse response).

(** Nothing exists at or below [p]. *)
Definition fresh (files : gmap path node) (p : path) : Prop :=
  ∀ q, p `prefix_of` q → files !! q = None.

(** The message of a negative liveness result built in a handler of [e]. *)
Definition failed_to_connect (self : RemoteRuntime.t) (e : exc) : string :=
  ("Failed to connect to " +:+ RemoteRuntime.host self +:+ nl) +:+ format_exc e.

Module RemoteScenario.

Definition client : RemoteRuntime.t := RemoteRuntime.__init__ "127.0.0.1" 8000.

Definition ValueError : exc_class :=
  ExcClass "ValueError" ["Exception"; "BaseException"].

(** The modules a client process has imported. *)
Definition sys_modules : gmap string (gmap string pyobj) :=
  <["swerex.runtime.abstract" :=
      <["SweRexception" := PyExceptionClass SweRexception]> ∅]>
    (<["builtins" :=
         <["ValueError" := PyExceptionClass ValueError]>
           (<["KeyboardInterrupt" := PyExceptionClass KeyboardInterrupt]> ∅)]>
       ∅).

Definition not_json {A} : exc + A := inl (Exc TypeError "unexpected body").

(** The transported-failure envelope: status 511 with a [swerexception]
    body. *)
Definition envelope (class_path message : string) : requests.Response :=
  requests.mkResponse 511 not_json
    (inr (ExceptionTransfer.mk message class_path "")) (inr "None") not_json.

Definition ok_upload : requests.Response :=
  requests.mkResponse 200 not_json not_json (inr "None") (inr UploadResponse.mk).

Definition files : gmap path node :=
  <[["d"; "a.txt"] := File (Bytes "A")]>
    (<[["d"] := Dir]> (<[["f.txt"] := File (Bytes "F")]> ∅)).

Definition world (answers : list (exc + requests.Response)) : World :=
  mkWorld sys_modules files [["tmp"; "x1"]] None answers [].

End RemoteScenario.

(** ** Vocabulary of the further properties *)

(** A text of blanks only. *)
Fixpoint all_space (s : string) : bool :=
  match s with
  | EmptyString => true
  | String c s' => isspace c && all_space s'
  end.

(** No dot occurs in the text. *)
Fixpoint no_dot (s : string) : bool :=
  match s with
  | EmptyString => true
  | String c s' => negb (Ascii.eqb c (Ascii.ascii_of_nat 46)) && no_dot s'
  end.

(** ** swerex/runtime/remote.py: the JSON endpoints

    [requests.post(url, json=request.model_dump())]: the request goes on a
    list of its own beside the world, the next pending answer comes back.
    The request and response classes are declared in
    [swerex/runtime/abstract.py], which is not among the sources: each
    method takes the type of its request as it is and, as [decode], the
    construction of its response from the keys of [response.json()]. *)

Record json_post (P : Type) := JsonPost { post_url : string; post_payload : P }.
Arguments JsonPost {P} _ _.
Arguments post_url {P} _.
Arguments post_payload {P} _.

Definition post_json {P} (url : string) (payload : P)
    : M (World * list (json_post P)) requests.Response :=
  λ '(w, posted),
    let posted' := posted ++ [JsonPost url payload] in
    match replies w with
    | reply :: rest =>
        (reply, (mkWorld (modules w) (fs w) (tempnames w) (archive_fault w)
                   rest (trace w), posted'))
    | [] =>
        (inl (Exc requests.ConnectionError "Max retries exceeded"),
         (mkWorld (modules w) (fs w) (tempnames w) (archive_fault w) []
            (trace w), posted'))
    end.

(** A step that concerns the world alone. *)
Definition on_world {L A} (m : M World A) : M (World * L) A :=
  λ '(w, l), let '(r, w') := m w in (r, (w', l)).

Module RemoteEndpoints.

Definition create_session {Req Resp} (decode : requests.Response → exc + Resp)
    (self : RemoteRuntime.t) (request : Req)
    : M (World * list (json_post Req)) Resp :=
  response <- post_json (RemoteRuntime._api_url self +:+ "/create_session")
                request ;;
  on_world (raise_for_status response) ;;;
  lift (decode response).

Definition run_in_session {Req Resp} (decode : requests.Response → exc + Resp)
    (self : RemoteRuntime.t) (action : Req)
    : M (World * list (json_post Req)) Resp :=
  response <- post_json (RemoteRuntime._api_url self +:+ "/run_in_session")
                action ;;
  on_world (RemoteRuntime._handle_response_errors self response) ;;;
  lift (decode response).

Definition close_session {Req Resp} (decode : requests.Response → exc + Resp)
    (self : RemoteRuntime.t) (request : Req)
    : M (World * list (json_post Req)) Resp :=
  response <- post_json (RemoteRuntime._api_url self +:+ "/close_session")
                request ;;
  on_world (RemoteRuntime._handle_response_errors self response) ;;;
  lift (decode response).

Definition execute {Req Resp} (decode : requests.Response → exc + Resp)
    (self : RemoteRuntime.t) (command : Req)
    : M (World * list (json_post Req)) Resp :=
  response <- post_json (RemoteRuntime._api_url self +:+ "/execute") command ;;
  on_world (RemoteRuntime._handle_response_errors self response) ;;;
  lift (decode response).

Definition read_file {Req Resp} (decode : requests.Response → exc + Resp)
    (self : RemoteRuntime.t) (request : Req)
    : M (World * list (json_post Req)) Resp :=
  response <- post_json (RemoteRuntime._api_url self +:+ "/read_file") request ;;
  on_world (RemoteRuntime._handle_response_errors self response) ;;;
  lift (decode response).

Definition write_file {Req Resp} (decode : requests.Response → exc + Resp)
    (self : RemoteRuntime.t) (request : Req)
    : M (World * list (json_post Req)) Resp :=
  response <- post_json (RemoteRuntime._api_url self +:+ "/write_file") request ;;
  on_world (RemoteRuntime._handle_response_errors self response) ;;;
  lift (decode response).

(** [close] posts no body and returns nothing. *)
Definition close (self : RemoteRuntime.t) : M (World * list (json_post unit)) unit :=
  response <- post_json (RemoteRuntime._api_url self +:+ "/close") tt ;;
  on_world (RemoteRuntime._handle_response_errors self response).

End RemoteEndpoints.

Module EndpointScenario.

(** An answer with the given status whose body decodes to nothing the
    client reads. *)
Definition answer (status : Z) : requests.Response :=
  requests.mkResponse status RemoteScenario.not_json RemoteScenario.not_json
    (inr "None") RemoteScenario.not_json.

(** A decoder that accepts every body as the given value. *)
Definition accept {A} (v : A) : requests.Response → exc + A := λ _, inr v.

End EndpointScenario.

(** * Properties *)

Arguments strip : simpl never.
Arguments lstrip : simpl never.
Arguments removeprefix : simpl never.
Arguments String.eqb : simpl never.
Arguments isinstance : simpl never.
Arguments String.append : simpl never.

Ltac unfold_py :=
  unfold Session.run, Session.start, Session.close, bind, ret, raise, get, put,
    attempt, py_assert, getitem, Session.on_shell, Session.except_TIMEOUT,
    pexpect.sendline, pexpect.setecho, pexpect.waitnoecho, pexpect.close,
    pexpect.record, pexpect.expect, pexpect.read_before;
  simpl.

Ltac norm_log := repeat (rewrite <- app_assoc; simpl); reflexivity.

Lemma run_uninitialized (a : Action.t) (s : Session.t) :
  Session.shell s = None →
  Session.run a s = (inr uninitialized_observation, s).
Proof. destruct s as [ps [sh|]]; [discriminate | reflexivity]. Qed.

Section RunCases.
Variables (a : Action.t) (ps : string) (lg : list pexpect.event)
          (bf : option string).

Let s (pend : list pexpect.outcome) : Session.t :=
  Session.mk ps (Some (pexpect.Spawn lg pend bf)).
Let lg1 : list pexpect.event :=
  lg ++ [pexpect.Sendline (Action.command a);
         pexpect.Expect (Action.expect a ++ [ps]) (Action.timeout a)].

Lemma run_silent :
  Session.run a (s []) =
    (inr command_timeout_observation,
     Session.mk ps (Some (pexpect.Spawn lg1 [] bf))).
Proof. unfold s, lg1. unfold_py. norm_log. Qed.

Lemma run_raised e rest :
  Session.run a (s (pexpect.Raised e :: rest)) =
    (if isinstance e pexpect.TIMEOUT
     then inr command_timeout_observation else inl e,
     Session.mk ps (Some (pexpect.Spawn lg1 rest bf))).
Proof.
  unfold s, lg1. unfold_py. destruct (isinstance e pexpect.TIMEOUT); norm_log.
Qed.

Lemma run_bad_index i out rest :
  (Action.expect a ++ [ps]) !! i = None →
  Session.run a (s (pexpect.Matched i out :: rest)) =
    (inl (Exc IndexError "list index out of range"),
     Session.mk ps (Some (pexpect.Spawn lg1 rest (Some out)))).
Proof.
  intros H. unfold s, lg1. unfold_py. rewrite H. simpl.
  norm_log.
Qed.

Lemma run_interactive_command i out rest pat :
  (Action.expect a ++ [ps]) !! i = Some pat →
  Action.is_interactive_command a = true →
  Action.is_interactive_quit a = false →
  Session.run a (s (pexpect.Matched i out :: rest)) =
    (inr (Observation.mk
            (strip (removeprefix (Action.command a) (lstrip out))) "0" "" pat),
     Session.mk ps (Some (pexpect.Spawn lg1 rest (Some out)))).
Proof.
  intros H Hc Hq. unfold s, lg1. unfold_py. rewrite H, Hc, Hq. simpl.
  norm_log.
Qed.

Let lg2 : list pexpect.event :=
  lg1 ++ [pexpect.Sendline (nl +:+ "echo $?");
          pexpect.Expect [ps] Session.timeout_1].

Lemma run_exit_code_silent i out pat :
  (Action.expect a ++ [ps]) !! i = Some pat →
  is_normal a = true →
  Session.run a (s [pexpect.Matched i out]) =
    (inr exit_code_timeout_observation,
     Session.mk ps (Some (pexpect.Spawn lg2 [] (Some out)))).
Proof.
  intros H Hn. unfold is_normal in Hn. unfold s, lg2, lg1. unfold_py.
  rewrite H, Hn. simpl. norm_log.
Qed.

Lemma run_exit_code_raised i out pat e rest :
  (Action.expect a ++ [ps]) !! i = Some pat →
  is_normal a = true →
  Session.run a (s (pexpect.Matched i out :: pexpect.Raised e :: rest)) =
    (if isinstance e pexpect.TIMEOUT
     then inr exit_code_timeout_observation else inl e,
     Session.mk ps (Some (pexpect.Spawn lg2 rest (Some out)))).
Proof.
  intros H Hn. unfold is_normal in Hn. unfold s, lg2, lg1. unfold_py.
  rewrite H, Hn. simpl. destruct (isinstance e pexpect.TIMEOUT); norm_log.
Qed.

Lemma run_normal i out pat j code rest :
  (Action.expect a ++ [ps]) !! i = Some pat →
  is_normal a = true →
  blank_status code = false →
  Session.run a (s (pexpect.Matched i out :: pexpect.Matched j code :: rest)) =
    (inr (Observation.mk out (strip code) "" pat),
     Session.mk ps (Some (pexpect.Spawn lg2 rest (Some code)))).
Proof.
  intros H Hn Hb. unfold is_normal in Hn. unfold blank_status in Hb.
  unfold s, lg2, lg1. unfold_py.
  rewrite H, Hn. simpl. rewrite Hb. norm_log.
Qed.

Let lg3 : list pexpect.event := lg2 ++ [pexpect.Expect [ps] Session.timeout_1].

Lemma run_retry i out pat j code k code' rest :
  (Action.expect a ++ [ps]) !! i = Some pat →
  is_normal a = true →
  blank_status code = true →
  Session.run a (s (pexpect.Matched i out :: pexpect.Matched j code
                      :: pexpect.Matched k code' :: rest)) =
    (inr (Observation.mk out (strip code') "" pat),
     Session.mk ps (Some (pexpect.Spawn lg3 rest (Some code')))).
Proof.
  intros H Hn Hb. unfold is_normal in Hn. unfold blank_status in Hb.
  unfold s, lg3, lg2, lg1. unfold_py.
  rewrite H, Hn. simpl. rewrite Hb. norm_log.
Qed.

Lemma run_retry_raised i out pat j code e rest :
  (Action.expect a ++ [ps]) !! i = Some pat →
  is_normal a = true →
  blank_status code = true →
  Session.run a (s (pexpect.Matched i out :: pexpect.Matched j code
                      :: pexpect.Raised e :: rest)) =
    (inl e, Session.mk ps (Some (pexpect.Spawn lg3 rest (Some code)))).
Proof.
  intros H Hn Hb. unfold is_normal in Hn. unfold blank_status in Hb.
  unfold s, lg3, lg2, lg1. unfold_py.
  rewrite H, Hn. simpl. rewrite Hb. norm_log.
Qed.

Lemma run_retry_silent i out pat j code :
  (Action.expect a ++ [ps]) !! i = Some pat →
  is_normal a = true →
  blank_status code = true →
  Session.run a (s [pexpect.Matched i out; pexpect.Matched j code]) =
    (inl (Exc pexpect.TIMEOUT "Timeout exceeded."),
     Session.mk ps (Some (pexpect.Spawn lg3 [] (Some code)))).
Proof.
  intros H Hn Hb. unfold is_normal in Hn. unfold blank_status in Hb.
  unfold s, lg3, lg2, lg1. unfold_py.
  rewrite H, Hn. simpl. rewrite Hb. norm_log.
Qed.

(** The interactive-quit branch: what the resynchronisation leaves, given
    the answers to its two waits. *)
Lemma run_quit_returns i out pat rest obs s' :
  (Action.expect a ++ [ps]) !! i = Some pat →
  Action.is_interactive_quit a = true →
  Session.run a (s (pexpect.Matched i out :: rest)) = (inr obs, s') →
  obs = Observation.mk out "0" "" pat.
Proof.
  intros H Hq. unfold s. unfold_py. rewrite H, Hq. simpl.
  destruct (Action.is_interactive_command a); simpl; [discriminate|].
  destruct rest as [|[k1 b1|e1] [|[k2 b2|e2] rest]]; simpl;
    intros Hr; inversion Hr; reflexivity.
Qed.
End RunCases.

(** ** Session.run *)

Lemma session_eta (s : Session.t) (sh : pexpect.spawn) :
  Session.shell s = Some sh →
  s = Session.mk (Session._ps1 s)
        (Some (pexpect.Spawn (pexpect.log sh) (pexpect.pending sh)
                 (pexpect.before sh))).
Proof. destruct s as [ps o]; simpl; intros ->. by destruct sh. Qed.

(** C3, as amended.  A session that holds no shell answers every action with
    the result value "-300" and the reason "shell not initialized"; nothing
    is raised and the session is left as it was. *)
Theorem C3_run_without_shell (a : Action.t) (s : Session.t) :
  Session.shell s = None →
  ∃ obs, Session.run a s = (inr obs, s)
         ∧ Observation.output obs = ""
         ∧ Observation.exit_code_raw obs = "-300"
         ∧ Observation.failure_reason obs = "shell not initialized"
         ∧ Observation.failure_reason obs ≠ "".
Proof.
  intros H. exists uninitialized_observation.
  split; [by apply run_uninitialized | repeat split; discriminate].
Qed.

Lemma C3_run_without_shell_witness :
  Session.shell Session.__init__ = None
  ∧ ∃ obs, Session.run (Scenario.action "ls") Session.__init__ =
             (inr obs, Session.__init__)
           ∧ Observation.output obs = ""
           ∧ Observation.exit_code_raw obs = "-300"
           ∧ Observation.failure_reason obs = "shell not initialized"
           ∧ Observation.failure_reason obs ≠ "".
Proof.
  split; [reflexivity |].
  apply (C3_run_without_shell (Scenario.action "ls") Session.__init__).
  reflexivity.
Defined.

(** C3 as stated fails after a failed start: the shell handle stays set, the
    command is sent, and the result is the command timeout "-100". *)
Lemma C3_counterexample :
  Session.start (inr (Scenario.child [])) Session.__init__ =
    (inr (CreateShellResponse.mk false "timeout while initializing shell" ""),
     Scenario.failed_start)
  ∧ (Session.run (Scenario.action "ls") Scenario.failed_start).1 =
      inr (Observation.mk "" "-100" "timeout while running command" "")
  ∧ (Session.run (Scenario.action "ls") Scenario.failed_start).1 ≠
      inr (Observation.mk "" "-300" "shell not initialized" "").
Proof. vm_compute. repeat split; discriminate. Qed.

Lemma start_leaves_no_shell_only_if_spawn_fails spawned s r s' :
  Session.start spawned s = (r, s') →
  Session.shell s' = None → ∃ e, spawned = inl e ∧ Session.shell s = None.
Proof.
  destruct spawned as [e|[lg pend bf]]; destruct s as [ps o].
  - unfold Session.start, bind, get, raise; simpl. intros [= <- <-]; eauto.
  - unfold_py.
    destruct pend as [|[i b|e] [|[i' b'|e'] rest]]; simpl;
      repeat match goal with
             | |- context [isinstance ?e ?c] => destruct (isinstance e c); simpl
             end;
      intros [= <- <-]; discriminate.
Qed.

Lemma closed_session_has_no_shell (s : Session.t) :
  Session.shell (Session.close s).2 = None.
Proof. destruct s as [ps [sh|]]; reflexivity. Qed.

(** C4, the failing input.  A normal command completes, the first wait for
    the exit status yields a blank, and the shell stays silent during the
    second wait: [run] raises [pexpect.TIMEOUT] where the first wait would
    have returned "-200". *)
Theorem C4_retry_timeout_is_raised :
  is_normal (Scenario.action "true") = true
  ∧ (Session.run (Scenario.action "true")
       (Scenario.started [pexpect.Matched 0 "out"; pexpect.Matched 0 ""])).1
    = inl (Exc pexpect.TIMEOUT "Timeout exceeded.").
Proof. vm_compute. split; reflexivity. Qed.

(** The first wait for the exit status is guarded: its timeout is the result
    value "-200". *)
Lemma run_exit_code_timeout (a : Action.t) (s : Session.t) (sh : pexpect.spawn)
    i out rest pat :
  Session.shell s = Some sh →
  pexpect.pending sh = pexpect.Matched i out :: rest →
  expect_strings a s !! i = Some pat →
  is_normal a = true →
  times_out rest = true →
  (Session.run a s).1 =
    inr (Observation.mk "" "-200" "timeout while getting exit code" "").
Proof.
  intros Hs Hp Hi Hn Ht. rewrite (session_eta s sh Hs), Hp.
  unfold expect_strings in Hi.
  destruct rest as [|[j code|e] rest]; try discriminate.
  - by erewrite run_exit_code_silent.
  - erewrite run_exit_code_raised by eassumption. simpl in Ht. by rewrite Ht.
Qed.

(** A blank first answer is followed by exactly one more wait for the
    prompt, whose text becomes the exit code. *)
Lemma run_retries_once (a : Action.t) (s : Session.t) (sh : pexpect.spawn)
    i out j code k code' rest pat :
  Session.shell s = Some sh →
  pexpect.pending sh =
    pexpect.Matched i out :: pexpect.Matched j code
      :: pexpect.Matched k code' :: rest →
  expect_strings a s !! i = Some pat →
  is_normal a = true →
  blank_status code = true →
  ∃ s', Session.run a s = (inr (Observation.mk out (strip code') "" pat), s')
        ∧ log_of s' =
            pexpect.log sh ++
              [pexpect.Sendline (Action.command a);
               pexpect.Expect (expect_strings a s) (Action.timeout a);
               pexpect.Sendline (nl +:+ "echo $?");
               pexpect.Expect [Session._ps1 s] Session.timeout_1;
               pexpect.Expect [Session._ps1 s] Session.timeout_1]
        ∧ pending_of s' = rest.
Proof.
  intros Hs Hp Hi Hn Hb. rewrite (session_eta s sh Hs), Hp.
  unfold expect_strings in *.
  erewrite run_retry by eassumption.
  eexists; split; [reflexivity |]. simpl. split; [|reflexivity].
  repeat (rewrite <- app_assoc; simpl). reflexivity.
Qed.

(** C5.  When the wait for the command times out, [run] returns the result
    value "-100" with empty output and a reason; the session keeps its shell
    and the answers not yet consumed, and a later normal command that the
    shell answers completes with its output and exit code. *)
Theorem C5_command_timeout_leaves_session_usable
    (a : Action.t) (s : Session.t) (sh : pexpect.spawn) :
  Session.shell s = Some sh →
  times_out (pexpect.pending sh) = true →
  ∃ s',
    Session.run a s =
      (inr (Observation.mk "" "-100" "timeout while running command" ""), s')
    ∧ Session.shell s' ≠ None
    ∧ Session._ps1 s' = Session._ps1 s
    ∧ pending_of s' = tail (pexpect.pending sh)
    ∧ ∀ (a2 : Action.t) i out j code rest pat,
        pending_of s' = pexpect.Matched i out :: pexpect.Matched j code :: rest →
        expect_strings a2 s' !! i = Some pat →
        is_normal a2 = true →
        blank_status code = false →
        ∃ s'', Session.run a2 s' =
                 (inr (Observation.mk out (strip code) "" pat), s'')
               ∧ pending_of s'' = rest.
Proof.
  intros Hs Ht. rewrite (session_eta s sh Hs).
  set (lg1 := pexpect.log sh ++
                [pexpect.Sendline (Action.command a);
                 pexpect.Expect (Action.expect a ++ [Session._ps1 s])
                   (Action.timeout a)]).
  exists (Session.mk (Session._ps1 s)
            (Some (pexpect.Spawn lg1 (tail (pexpect.pending sh))
                     (pexpect.before sh)))).
  split.
  { destruct (pexpect.pending sh) as [|[i b|e] rest]; try discriminate.
    - apply run_silent.
    - rewrite run_raised. simpl in Ht. by rewrite Ht. }
  repeat split; [discriminate |].
  intros a2 i out j code rest pat Hp Hi Hn Hb.
  unfold pending_of in Hp; simpl in Hp. rewrite Hp.
  unfold expect_strings in Hi; simpl in Hi.
  erewrite run_normal by eassumption.
  eexists; split; reflexivity.
Qed.

Lemma C5_command_timeout_leaves_session_usable_witness :
  ∃ s',
    Session.run (Scenario.action "sleep 5")
      (Scenario.started [pexpect.Raised Scenario.a_timeout;
                         pexpect.Matched 0 "again"; pexpect.Matched 0 "0"]) =
      (inr (Observation.mk "" "-100" "timeout while running command" ""), s')
    ∧ (Session.run (Scenario.action "echo again") s').1 =
        inr (Observation.mk "again" "0" "" "SHELLPS1PREFIX").
Proof.
  destruct (C5_command_timeout_leaves_session_usable
              (Scenario.action "sleep 5")
              (Scenario.started [pexpect.Raised Scenario.a_timeout;
                                 pexpect.Matched 0 "again"; pexpect.Matched 0 "0"])
              (pexpect.Spawn
                 [pexpect.Sendline "echo 'fully_initialized'";
                  pexpect.Expect ["fully_initialized"] Session.timeout_1;
                  pexpect.Sendline
                    "umask 002; export PS1='SHELLPS1PREFIX'; export PS2=''";
                  pexpect.Expect ["SHELLPS1PREFIX"] Session.timeout_1]
                 [pexpect.Raised Scenario.a_timeout;
                  pexpect.Matched 0 "again"; pexpect.Matched 0 "0"]
                 (Some ""))
              eq_refl eq_refl) as (s' & Hrun & _ & Hps & Hpend & Hnext).
  exists s'. split; [exact Hrun |].
  destruct (Hnext (Scenario.action "echo again") 0 "again" 0 "0" []
              "SHELLPS1PREFIX" Hpend) as (s'' & Hrun2 & _).
  - unfold expect_strings. rewrite Hps. reflexivity.
  - reflexivity.
  - reflexivity.
  - rewrite Hrun2. reflexivity.
Defined.

(** An interactive command (not a quit) whose wait matched: the output is
    the captured text, stripped on the left, without the command text at
    its start if it is there, and stripped; the exit code is the synthetic
    "0", and nothing was exchanged with the shell beyond the command and its
    wait. *)
Lemma interactive_command_skips_exit_code
    (a : Action.t) (s : Session.t) (sh : pexpect.spawn) i out rest pat :
  Session.shell s = Some sh →
  pexpect.pending sh = pexpect.Matched i out :: rest →
  expect_strings a s !! i = Some pat →
  Action.is_interactive_command a = true →
  Action.is_interactive_quit a = false →
  ∃ s',
    Session.run a s =
      (inr (Observation.mk
              (strip (removeprefix (Action.command a) (lstrip out)))
              "0" "" pat), s')
    ∧ log_of s' =
        pexpect.log sh ++
          [pexpect.Sendline (Action.command a);
           pexpect.Expect (expect_strings a s) (Action.timeout a)]
    ∧ pending_of s' = rest.
Proof.
  intros Hs Hp Hi Hc Hq. rewrite (session_eta s sh Hs), Hp.
  unfold expect_strings in *.
  erewrite run_interactive_command by eassumption.
  eexists; split; [reflexivity |]. split; reflexivity.
Qed.

Lemma interactive_command_skips_exit_code_witness :
  ∃ s',
    Session.run
      (Action.mk "main" "python3" (QArith_base.Qmake 1 1) [">>> "] true false)
      (Scenario.started [pexpect.Matched 0 ("python3" +:+ nl +:+ "Python 3.11")])
    = (inr (Observation.mk "Python 3.11" "0" "" ">>> "), s')
    ∧ pending_of s' = [].
Proof.
  destruct (interactive_command_skips_exit_code
              (Action.mk "main" "python3" (QArith_base.Qmake 1 1) [">>> "]
                 true false)
              (Scenario.started
                 [pexpect.Matched 0 ("python3" +:+ nl +:+ "Python 3.11")])
              (pexpect.Spawn
                 [pexpect.Sendline "echo 'fully_initialized'";
                  pexpect.Expect ["fully_initialized"] Session.timeout_1;
                  pexpect.Sendline
                    "umask 002; export PS1='SHELLPS1PREFIX'; export PS2=''";
                  pexpect.Expect ["SHELLPS1PREFIX"] Session.timeout_1]
                 [pexpect.Matched 0 ("python3" +:+ nl +:+ "Python 3.11")]
                 (Some ""))
              0 ("python3" +:+ nl +:+ "Python 3.11") [] ">>> "
              eq_refl eq_refl eq_refl eq_refl eq_refl)
    as (s' & Hrun & _ & Hpend).
  exists s'. split; [exact Hrun | exact Hpend].
Defined.

(** C6, the failing input.  The command starts with a blank and the
    terminal echoes it ahead of the program's text: [lstrip] takes the blank
    off the captured text, the command is then no prefix of it, and the
    echo stays in the output.  No exit status is retrieved and the exit
    code is "0". *)
Theorem C6_echo_of_blank_led_command_is_kept :
  Session.run
    (Action.mk "main" " python3" (QArith_base.Qmake 1 1) [">>> "] true false)
    (Scenario.started [pexpect.Matched 0 (" python3" +:+ nl +:+ "Python 3.11")])
  = (inr (Observation.mk ("python3" +:+ nl +:+ "Python 3.11") "0" "" ">>> "),
     Session.mk "SHELLPS1PREFIX"
       (Some (pexpect.Spawn
                [pexpect.Sendline "echo 'fully_initialized'";
                 pexpect.Expect ["fully_initialized"] Session.timeout_1;
                 pexpect.Sendline
                   "umask 002; export PS1='SHELLPS1PREFIX'; export PS2=''";
                 pexpect.Expect ["SHELLPS1PREFIX"] Session.timeout_1;
                 pexpect.Sendline " python3";
                 pexpect.Expect [">>> "; "SHELLPS1PREFIX"]
                   (QArith_base.Qmake 1 1)]
                []
                (Some (" python3" +:+ nl +:+ "Python 3.11"))))).
Proof. vm_compute. reflexivity. Qed.

(** C8 as stated fails on its last part: a command that completes, with its
    exit status exchange answered, returns no failure reason and an exit
    code that is not an integer (here the rest of the command's output, the
    caller's pattern having matched early). *)
Lemma C8_counterexample :
  ∃ obs s',
    Session.run
      (Action.mk "main" "echo hello; echo world" (QArith_base.Qmake 1 1)
         ["hello"] false false)
      (Scenario.started
         [pexpect.Matched 0 ""; pexpect.Matched 0 (nl +:+ "world" +:+ nl)])
    = (inr obs, s')
    ∧ Observation.failure_reason obs = ""
    ∧ Observation.exit_code_raw obs = "world"
    ∧ parses_as_int (Observation.exit_code_raw obs) = false.
Proof. eexists _, _. vm_compute. repeat split. Qed.

(** C8, as amended.  An Observation returned by [run] carries a failure
    reason exactly when the session held no shell, the command's wait timed
    out, or the wait of the exit status exchange timed out.  Otherwise the
    reason is empty, and the exit code is "0" for an interactive command or
    quit and, for a normal command, the stripped text before the prompt of
    the last wait. *)
Theorem C8_failure_reason_iff_off_normal_path
    (a : Action.t) (s s' : Session.t) (obs : Observation.t) :
  Session.run a s = (inr obs, s') →
  (Observation.failure_reason obs ≠ "" ↔ off_normal_path a s = true)
  ∧ (off_normal_path a s = false →
       Observation.failure_reason obs = ""
       ∧ (is_normal a = false → Observation.exit_code_raw obs = "0")
       ∧ (is_normal a = true →
            ∃ sh' b, Session.shell s' = Some sh'
                     ∧ pexpect.before sh' = Some b
                     ∧ Observation.exit_code_raw obs = strip b)).
Proof.
  destruct s as [ps [[lg pend bf]|]]; unfold off_normal_path; simpl.
  2: { rewrite run_uninitialized by done. intros [= <- <-].
       split; [split; [done | discriminate] | discriminate]. }
  destruct pend as [|[i out|e] rest]; simpl.
  - rewrite run_silent. intros [= <- <-].
    split; [split; [done | discriminate] | discriminate].
  - destruct ((Action.expect a ++ [ps]) !! i) as [pat|] eqn:Hi.
    2: { rewrite run_bad_index by done. discriminate. }
    destruct (is_normal a) eqn:Hn; simpl.
    + destruct rest as [|[j code|e] rest]; simpl.
      * erewrite run_exit_code_silent by eassumption. intros [= <- <-].
        split; [split; [done | discriminate] | discriminate].
      * destruct (blank_status code) eqn:Hb.
        -- destruct rest as [|[k code'|e] rest].
           ++ erewrite run_retry_silent by eassumption. discriminate.
           ++ erewrite run_retry by eassumption. intros [= <- <-]. simpl.
              split; [split; [done | discriminate] |].
              intros _. repeat split; [discriminate | eauto].
           ++ erewrite run_retry_raised by eassumption. discriminate.
        -- erewrite run_normal by eassumption. intros [= <- <-]. simpl.
           split; [split; [done | discriminate] |].
           intros _. repeat split; [discriminate | eauto].
      * erewrite run_exit_code_raised by eassumption.
        destruct (isinstance e pexpect.TIMEOUT); [|discriminate].
        intros [= <- <-]. split; [split; [done | discriminate] | discriminate].
    + unfold is_normal in Hn.
      destruct (Action.is_interactive_quit a) eqn:Hq.
      * intros Hr. apply run_quit_returns with (pat := pat) in Hr; [|done..].
        subst obs; simpl. split; [split; [done | discriminate] |].
        intros _. repeat split; discriminate.
      * destruct (Action.is_interactive_command a) eqn:Hc; [|discriminate].
        erewrite run_interactive_command by eassumption. intros [= <- <-].
        simpl. split; [split; [done | discriminate] |].
        intros _. repeat split; discriminate.
  - rewrite run_raised. destruct (isinstance e pexpect.TIMEOUT); [|discriminate].
    intros [= <- <-]. split; [split; [done | discriminate] | discriminate].
Qed.

Lemma C8_failure_reason_iff_off_normal_path_witness :
  (Observation.failure_reason (Observation.mk "hi" "0" "" "SHELLPS1PREFIX") ≠ ""
   ↔ off_normal_path (Scenario.action "echo hi")
       (Scenario.started [pexpect.Matched 0 "hi"; pexpect.Matched 0 "0"]) = true)
  ∧ (off_normal_path (Scenario.action "echo hi")
       (Scenario.started [pexpect.Matched 0 "hi"; pexpect.Matched 0 "0"]) = false →
     Observation.failure_reason (Observation.mk "hi" "0" "" "SHELLPS1PREFIX") = ""
     ∧ (is_normal (Scenario.action "echo hi") = false →
        Observation.exit_code_raw (Observation.mk "hi" "0" "" "SHELLPS1PREFIX") = "0")
     ∧ (is_normal (Scenario.action "echo hi") = true →
        ∃ sh' b,
          Session.shell
            (Session.run (Scenario.action "echo hi")
               (Scenario.started [pexpect.Matched 0 "hi"; pexpect.Matched 0 "0"])).2
          = Some sh'
          ∧ pexpect.before sh' = Some b
          ∧ Observation.exit_code_raw
              (Observation.mk "hi" "0" "" "SHELLPS1PREFIX") = strip b)).
Proof.
  apply (C8_failure_reason_iff_off_normal_path (Scenario.action "echo hi")
           (Scenario.started [pexpect.Matched 0 "hi"; pexpect.Matched 0 "0"])).
  vm_compute. reflexivity.
Defined.

(** ** Runtime *)

Lemma on_session_some {A} name (m : M Session.t A) (rt : Runtime.t) s :
  Runtime.sessions rt !! name = Some s →
  Runtime.on_session name m rt =
    ((m s).1, Runtime.mk (<[name := (m s).2]> (Runtime.sessions rt))).
Proof. intros H. unfold Runtime.on_session. rewrite H. by destruct (m s). Qed.

Lemma on_session_none {A} name (m : M Session.t A) (rt : Runtime.t) :
  Runtime.sessions rt !! name = None →
  Runtime.on_session name m rt = (inl (Exc KeyError name), rt).
Proof. intros H. unfold Runtime.on_session. by rewrite H. Qed.

Lemma create_shell_fresh spawned name (rt : Runtime.t) :
  Runtime.sessions rt !! name = None →
  Runtime.create_shell spawned (CreateShellRequest.mk name) rt =
    ((Session.start spawned Session.__init__).1,
     Runtime.mk (<[name := (Session.start spawned Session.__init__).2]>
                   (Runtime.sessions rt))).
Proof.
  intros H.
  unfold Runtime.create_shell, Runtime.contains, bind, get, put, py_assert, ret.
  simpl. rewrite H. simpl.
  erewrite on_session_some by (simpl; apply lookup_insert_eq).
  simpl. by rewrite insert_insert_eq.
Qed.

Lemma create_shell_taken spawned name (rt : Runtime.t) :
  is_Some (Runtime.sessions rt !! name) →
  Runtime.create_shell spawned (CreateShellRequest.mk name) rt =
    (inl (Exc AssertionError ""), rt).
Proof.
  intros [s H].
  unfold Runtime.create_shell, Runtime.contains, bind, get, put, py_assert, raise.
  simpl. by rewrite H.
Qed.

(** C7.  An action whose session name is not in the registry makes
    [Runtime.run] raise [KeyError] on that name; no Observation is returned
    and the registry is left as it was. *)
Theorem C7_run_unknown_session_raises (a : Action.t) (rt : Runtime.t) :
  Runtime.sessions rt !! Action.session a = None →
  Runtime.run a rt = (inl (Exc KeyError (Action.session a)), rt).
Proof. intros H. by apply on_session_none. Qed.

Lemma C7_run_unknown_session_raises_witness :
  Runtime.run (Scenario.action "ls") Runtime.__init__ =
    (inl (Exc KeyError "main"), Runtime.__init__).
Proof.
  apply (C7_run_unknown_session_raises (Scenario.action "ls") Runtime.__init__).
  reflexivity.
Defined.

(** With a shell in place, [run] always writes the command to it and never
    answers with the uninitialised-session result. *)
Lemma run_with_shell_sends_command (a : Action.t) (s : Session.t) sh :
  Session.shell s = Some sh →
  (Session.run a s).1 ≠ inr uninitialized_observation
  ∧ pexpect.Sendline (Action.command a) ∈ log_of (Session.run a s).2.
Proof.
  intros Hs. rewrite (session_eta s sh Hs).
  set (ps := Session._ps1 s). set (lg := pexpect.log sh).
  set (bf := pexpect.before sh).
  assert (Hin : ∀ l : list pexpect.event,
             pexpect.Sendline (Action.command a) ∈
               lg ++ pexpect.Sendline (Action.command a) :: l)
    by (intros l; set_solver).
  destruct (pexpect.pending sh) as [|[i out|e] rest].
  - rewrite run_silent. split; [discriminate | apply Hin].
  - destruct ((Action.expect a ++ [ps]) !! i) as [pat|] eqn:Hi.
    2: { rewrite run_bad_index by done. split; [discriminate | apply Hin]. }
    destruct (is_normal a) eqn:Hn.
    + destruct rest as [|[j code|e] rest].
      * erewrite run_exit_code_silent by eassumption.
        split; [discriminate |]. simpl. rewrite <- app_assoc. apply Hin.
      * destruct (blank_status code) eqn:Hb.
        -- destruct rest as [|[k code'|e] rest].
           ++ erewrite run_retry_silent by eassumption.
              split; [discriminate |]. simpl. rewrite <- !app_assoc. apply Hin.
           ++ erewrite run_retry by eassumption.
              split; [discriminate |]. simpl. rewrite <- !app_assoc. apply Hin.
           ++ erewrite run_retry_raised by eassumption.
              split; [discriminate |]. simpl. rewrite <- !app_assoc. apply Hin.
        -- erewrite run_normal by eassumption.
           split; [discriminate |]. simpl. rewrite <- !app_assoc. apply Hin.
      * erewrite run_exit_code_raised by eassumption.
        split; [destruct (isinstance e pexpect.TIMEOUT); discriminate |].
        simpl. rewrite <- !app_assoc. apply Hin.
    + unfold is_normal in Hn. unfold_py. rewrite Hi. simpl. rewrite Hn. simpl.
      destruct (Action.is_interactive_quit a); simpl.
      * destruct (Action.is_interactive_command a); simpl.
        { split; [discriminate |]. unfold log_of; simpl.
          rewrite <- !app_assoc. apply Hin. }
        destruct rest as [|[k1 b1|e1] [|[k2 b2|e2] rest]]; simpl;
          (split; [discriminate |]); unfold log_of; simpl;
          repeat (rewrite <- app_assoc; simpl); apply Hin.
      * split; [discriminate |]. unfold log_of; simpl.
        rewrite <- !app_assoc. apply Hin.
  - rewrite run_raised.
    split; [destruct (isinstance e pexpect.TIMEOUT); discriminate | apply Hin].
Qed.

Lemma start_failure_keeps_shell spawned s resp s' :
  Session.start spawned s = (inr resp, s') →
  is_Some (Session.shell s').
Proof.
  destruct spawned as [e|[lg pend bf]]; destruct s as [ps o].
  - unfold Session.start, bind, get, raise; simpl. discriminate.
  - unfold_py.
    destruct pend as [|[i b|e] [|[i' b'|e'] rest]]; simpl;
      repeat match goal with
             | |- context [isinstance ?e ?c] => destruct (isinstance e c); simpl
             end;
      intros [= <- <-]; eauto.
Qed.

(** Once the child is spawned, [start] leaves it in the session however it
    ends: with a result or with a raised error. *)
Lemma start_keeps_the_spawned_child (child : pexpect.spawn) (s : Session.t) :
  is_Some (Session.shell (Session.start (inr child) s).2).
Proof.
  destruct child as [lg pend bf]; destruct s as [ps o]. unfold_py.
  destruct pend as [|[i b|e] [|[i' b'|e'] rest]]; simpl;
    repeat match goal with
           | |- context [isinstance ?e ?c] => destruct (isinstance e c); simpl
           end;
    eauto.
Qed.

(** C10 as stated fails when the start attempt fails at the spawn: the name
    is registered, but the session holds no shell handle and a run on it
    takes the "-300" path. *)
Lemma C10_counterexample :
  let spawned : exc + pexpect.spawn :=
    inl (Exc FileNotFoundError "/bin/bash") in
  let rt' := (Runtime.create_shell spawned (CreateShellRequest.mk "main")
                Runtime.__init__).2 in
  (Runtime.create_shell spawned (CreateShellRequest.mk "main")
     Runtime.__init__).1 = inl (Exc FileNotFoundError "/bin/bash")
  ∧ Runtime.sessions rt' !! "main" = Some (Session.mk "SHELLPS1PREFIX" None)
  ∧ (Runtime.run (Scenario.action "ls") rt').1
    = inr (Observation.mk "" "-300" "shell not initialized" "").
Proof. vm_compute. repeat split. Qed.

(** C10, as amended.  [create_shell] stores the session under its name
    before starting it: however the start attempt ends, with a result or
    with a raised error, the name is registered afterwards with the session
    as [start] left it, and creating the name again raises [AssertionError]
    and changes nothing.  When the shell was spawned (so in particular when
    the start failed by a timeout) the session holds its handle, and a run
    on it writes the command to the shell and does not answer with the
    "-300" result; when the spawn itself raised, that error is raised and
    the session holds no handle. *)
Theorem C10_session_is_registered_before_start
    (spawned : exc + pexpect.spawn) (name : string) (rt : Runtime.t) :
  Runtime.sessions rt !! name = None →
  let r := (Runtime.create_shell spawned (CreateShellRequest.mk name) rt).1 in
  let rt' := (Runtime.create_shell spawned (CreateShellRequest.mk name) rt).2 in
  r = (Session.start spawned Session.__init__).1
  ∧ Runtime.sessions rt' !! name =
      Some (Session.start spawned Session.__init__).2
  ∧ (∀ other, other ≠ name →
       Runtime.sessions rt' !! other = Runtime.sessions rt !! other)
  ∧ (∀ spawned2,
       Runtime.create_shell spawned2 (CreateShellRequest.mk name) rt' =
         (inl (Exc AssertionError ""), rt'))
  ∧ (∀ child, spawned = inr child →
       (∃ s sh, Runtime.sessions rt' !! name = Some s
                ∧ Session.shell s = Some sh)
       ∧ ∀ a : Action.t,
           Action.session a = name →
           (Runtime.run a rt').1 ≠
             inr (Observation.mk "" "-300" "shell not initialized" "")
           ∧ ∃ s2, Runtime.sessions (Runtime.run a rt').2 !! name = Some s2
                   ∧ pexpect.Sendline (Action.command a) ∈ log_of s2)
  ∧ (∀ e, spawned = inl e →
       r = inl e
       ∧ Runtime.sessions rt' !! name = Some Session.__init__).
Proof.
  intros Hfresh r rt'. subst r rt'.
  rewrite create_shell_fresh by done. cbn [fst snd].
  set (s := (Session.start spawned Session.__init__).2).
  assert (Hlook : Runtime.sessions
                    (Runtime.mk (<[name := s]> (Runtime.sessions rt))) !! name
                  = Some s) by (simpl; apply lookup_insert_eq).
  split; [reflexivity |]. split; [exact Hlook |]. split; [|split; [|split]].
  - intros other Hne. simpl. by rewrite lookup_insert_ne.
  - intros spawned2. apply create_shell_taken. rewrite Hlook. eauto.
  - intros child ->.
    destruct (start_keeps_the_spawned_child child Session.__init__) as [sh Hsh].
    fold s in Hsh. split; [eauto |].
    intros a Ha. unfold Runtime.run. rewrite Ha.
    erewrite on_session_some by exact Hlook.
    destruct (run_with_shell_sends_command a s sh Hsh) as [Hne Hin].
    split; [exact Hne |]. simpl.
    eexists. split; [apply lookup_insert_eq | exact Hin].
  - intros e ->. split; [reflexivity | exact Hlook].
Qed.

Lemma C10_session_is_registered_before_start_witness :
  Runtime.sessions Runtime.__init__ !! "main" = None
  ∧ (Runtime.create_shell (inr (Scenario.child [])) (CreateShellRequest.mk "main")
       Runtime.__init__).1
    = inr (CreateShellResponse.mk false "timeout while initializing shell" "")
  ∧ (∀ spawned2,
       Runtime.create_shell spawned2 (CreateShellRequest.mk "main")
         Scenario.registry_failed_start =
         (inl (Exc AssertionError ""), Scenario.registry_failed_start))
  ∧ (∃ s sh, Runtime.sessions Scenario.registry_failed_start !! "main" = Some s
             ∧ Session.shell s = Some sh)
  ∧ (Runtime.run (Scenario.action "ls") Scenario.registry_failed_start).1 ≠
      inr (Observation.mk "" "-300" "shell not initialized" "").
Proof.
  destruct (C10_session_is_registered_before_start (inr (Scenario.child []))
              "main" Runtime.__init__ eq_refl)
    as (Hr & _ & _ & Hagain & Hchild & _).
  destruct (Hchild (Scenario.child []) eq_refl) as [Hshell Hrun].
  split; [reflexivity |]. split; [exact Hr |]. split; [exact Hagain |].
  split; [exact Hshell |]. apply (Hrun (Scenario.action "ls")). reflexivity.
Defined.

(** ** RemoteRuntime: error reconstruction *)

Arguments rpartition : simpl never.

Ltac unfold_remote :=
  unfold RemoteRuntime._handle_transfer_exception,
    RemoteRuntime._handle_response_errors, raise_for_status, lift, round_trip,
    bind, ret, raise, get, put, attempt;
  simpl.

(** The error-kind identifier resolves to a class: an instance of that class
    is raised, with the carried message. *)
Lemma transfer_resolved (self : RemoteRuntime.t) (t : ExceptionTransfer.t)
    (w : World) module exc_name m c :
  rpartition (ExceptionTransfer.class_path t) = (module, ".", exc_name) →
  modules w !! module = Some m →
  m !! exc_name = Some (PyExceptionClass c) →
  RemoteRuntime._handle_transfer_exception self t w =
    (inl (Exc c (ExceptionTransfer.message t)), w).
Proof.
  intros Hp Hm Hc. unfold_remote. rewrite Hp, Hm. simpl. rewrite Hc. reflexivity.
Qed.

(** The module is imported but has no such attribute: the generic error is
    raised, with the carried message. *)
Lemma transfer_unknown_attribute (self : RemoteRuntime.t)
    (t : ExceptionTransfer.t) (w : World) module sep exc_name m :
  rpartition (ExceptionTransfer.class_path t) = (module, sep, exc_name) →
  modules w !! module = Some m →
  m !! exc_name = None →
  RemoteRuntime._handle_transfer_exception self t w =
    (inl (Exc SweRexception (ExceptionTransfer.message t)), w).
Proof.
  intros Hp Hm Hc. unfold_remote. rewrite Hp, Hm. simpl. rewrite Hc. reflexivity.
Qed.

(** The module is not imported: the [KeyError] of the failed lookup in
    [sys.modules] escapes, and the carried message is lost. *)
Lemma transfer_unknown_module (self : RemoteRuntime.t)
    (t : ExceptionTransfer.t) (w : World) module sep exc_name :
  rpartition (ExceptionTransfer.class_path t) = (module, sep, exc_name) →
  modules w !! module = None →
  RemoteRuntime._handle_transfer_exception self t w =
    (inl (Exc KeyError module), w).
Proof. intros Hp Hm. unfold_remote. rewrite Hp, Hm. reflexivity. Qed.

Lemma handle_transfer_exception_raises (self : RemoteRuntime.t)
    (t : ExceptionTransfer.t) (w : World) :
  ∃ e, RemoteRuntime._handle_transfer_exception self t w = (inl e, w).
Proof.
  unfold_remote.
  destruct (rpartition (ExceptionTransfer.class_path t)) as [[module sep] exc_name].
  destruct (modules w !! module) as [m|]; simpl; [|eauto].
  destruct (m !! exc_name) as [[c|e]|]; simpl; eauto.
Qed.

(** C2, the failing input.  A transported failure whose error-kind
    identifier names a module the client has not imported: the client
    raises [KeyError] on the module name, not the generic error with the
    original message. *)
Theorem C2_unknown_module_raises_KeyError :
  (RemoteRuntime._handle_transfer_exception RemoteScenario.client
     (ExceptionTransfer.mk "boom" "remote_pkg.errors.RemoteError" "")
     (RemoteScenario.world [])).1
  = inl (Exc KeyError "remote_pkg.errors")
  ∧ (RemoteRuntime._handle_transfer_exception RemoteScenario.client
       (ExceptionTransfer.mk "boom" "RemoteError" "")
       (RemoteScenario.world [])).1
    = inl (Exc KeyError "").
Proof. vm_compute. split; reflexivity. Qed.

(** ** RemoteRuntime: liveness *)

Lemma is_alive_handler (self : RemoteRuntime.t) timeout (w : World) :
  ∀ r w',
    attempt
      (response <- round_trip
                     (requests.Get (RemoteRuntime._api_url self +:+ "/is_alive")
                        timeout) ;;
       if (requests.status_code response =? 200)%Z
       then lift (requests.as_IsAliveResponse response)
       else
         (if (requests.status_code response =? 511)%Z
          then
            exc_transfer <- lift (requests.as_ExceptionTransfer response) ;;
            RemoteRuntime._handle_transfer_exception self exc_transfer
          else ret tt) ;;;
         message <- lift (requests.get_message response) ;;
         ret (IsAliveResponse.mk false
                ("Status code " +:+ pretty (requests.status_code response)
                 +:+ " from " +:+ RemoteRuntime._api_url self +:+ "/is_alive. "
                 +:+ "Message: " +:+ message))) w = (inr r, w') →
    RemoteRuntime.is_alive self timeout w =
      match r with
      | inr v => (inr v, w')
      | inl e =>
          if isinstance e requests.RequestException || isinstance e Exception
          then (inr (IsAliveResponse.mk false (failed_to_connect self e)), w')
          else (inl e, w')
      end.
Proof.
  intros r w' H. unfold RemoteRuntime.is_alive.
  unfold bind at 1. rewrite H. destruct r as [e|v]; [|reflexivity].
  unfold failed_to_connect.
  destruct (isinstance e requests.RequestException); simpl; [reflexivity|].
  destruct (isinstance e Exception); reflexivity.
Qed.

Lemma failed_to_connect_nonempty self e : failed_to_connect self e ≠ "".
Proof. discriminate. Qed.

(** Whatever the network does, a liveness probe that raises raises an error
    outside [Exception]; every other failure is a negative result. *)
Lemma is_alive_raises_only_outside_Exception (self : RemoteRuntime.t) timeout
    (w w' : World) (e : exc) :
  RemoteRuntime.is_alive self timeout w = (inl e, w') →
  isinstance e Exception = false
  ∧ isinstance e requests.RequestException = false.
Proof.
  destruct (attempt
      (response <- round_trip
                     (requests.Get (RemoteRuntime._api_url self +:+ "/is_alive")
                        timeout) ;;
       if (requests.status_code response =? 200)%Z
       then lift (requests.as_IsAliveResponse response)
       else
         (if (requests.status_code response =? 511)%Z
          then
            exc_transfer <- lift (requests.as_ExceptionTransfer response) ;;
            RemoteRuntime._handle_transfer_exception self exc_transfer
          else ret tt) ;;;
         message <- lift (requests.get_message response) ;;
         ret (IsAliveResponse.mk false
                ("Status code " +:+ pretty (requests.status_code response)
                 +:+ " from " +:+ RemoteRuntime._api_url self +:+ "/is_alive. "
                 +:+ "Message: " +:+ message))) w) as [r w1] eqn:H.
  assert (∃ r', r = inr r') as [r' ->].
  { unfold attempt in H.
    match type of H with (let '(_, _) := ?m in _) = _ => destruct m end.
    injection H as <- _. eauto. }
  rewrite (is_alive_handler self timeout w _ _ H).
  destruct r' as [e'|v]; [|discriminate].
  destruct (isinstance e' requests.RequestException) eqn:H1; simpl; [discriminate|].
  destruct (isinstance e' Exception) eqn:H2; [discriminate|].
  intros [= <- <-]. done.
Qed.

(** An unreachable host: the probe yields a negative result with a message. *)
Lemma is_alive_unreachable (self : RemoteRuntime.t) timeout (w : World) :
  replies w = [] →
  ∃ w', RemoteRuntime.is_alive self timeout w =
          (inr (IsAliveResponse.mk false
                  (failed_to_connect self
                     (Exc requests.ConnectionError "Max retries exceeded"))), w').
Proof.
  intros H. eexists.
  erewrite is_alive_handler.
  2: { unfold attempt, bind, round_trip. rewrite H. reflexivity. }
  reflexivity.
Qed.

(** A request that fails with any error inside [Exception] yields a negative
    result with a message. *)
Lemma is_alive_request_fails (self : RemoteRuntime.t) timeout (w : World) e rest :
  replies w = inl e :: rest →
  isinstance e Exception = true →
  ∃ w', RemoteRuntime.is_alive self timeout w =
          (inr (IsAliveResponse.mk false (failed_to_connect self e)), w').
Proof.
  intros H He. eexists.
  erewrite is_alive_handler.
  2: { unfold attempt, bind, round_trip. rewrite H. reflexivity. }
  simpl. rewrite He, orb_true_r. reflexivity.
Qed.

(** The envelope is reconstructed inside the [try]: when the error it
    carries resolves to a class inside [Exception], the handler turns it
    into a negative result. *)
Lemma is_alive_swallows_envelope (self : RemoteRuntime.t) timeout (w : World)
    response rest t module exc_name m c :
  replies w = inr response :: rest →
  requests.status_code response = 511%Z →
  requests.as_ExceptionTransfer response = inr t →
  rpartition (ExceptionTransfer.class_path t) = (module, ".", exc_name) →
  modules w !! module = Some m →
  m !! exc_name = Some (PyExceptionClass c) →
  "Exception" ∈ cls_bases c →
  ∃ w', RemoteRuntime.is_alive self timeout w =
          (inr (IsAliveResponse.mk false
                  (failed_to_connect self (Exc c (ExceptionTransfer.message t)))),
           w').
Proof.
  intros Hr Hs Ht Hp Hm Hc Hb. eexists.
  erewrite is_alive_handler.
  2: { unfold attempt, bind at 1, round_trip. rewrite Hr. simpl.
       rewrite Hs. simpl. unfold bind at 1. unfold bind at 1.
       unfold lift at 1. rewrite Ht.
       erewrite transfer_resolved by (simpl; eassumption). reflexivity. }
  simpl.
  assert (isinstance (Exc c (ExceptionTransfer.message t)) Exception = true) as ->.
  { unfold isinstance. apply bool_decide_eq_true. right. exact Hb. }
  rewrite orb_true_r. reflexivity.
Qed.

(** C1, the failing input.  The server answers the probe with the envelope
    (status 511) carrying a [SweRexception]: [is_alive] returns a negative
    result whose message reports a failure to connect, and raises nothing. *)
Theorem C1_envelope_is_not_propagated :
  (RemoteRuntime.is_alive RemoteScenario.client None
     (RemoteScenario.world
        [inr (RemoteScenario.envelope "swerex.runtime.abstract.SweRexception"
                "boom")])).1
  = inr (IsAliveResponse.mk false
           (failed_to_connect RemoteScenario.client (Exc SweRexception "boom"))).
Proof. vm_compute. reflexivity. Qed.

(** ** RemoteRuntime: upload *)

Lemma rpartition_dot_zip (name : string) :
  rpartition_dot (name +:+ ".zip") = Some (name, "zip").
Proof.
  induction name as [|c name IH]; [reflexivity |].
  change (String c name +:+ ".zip") with (String c (name +:+ ".zip")).
  simpl. rewrite IH. reflexivity.
Qed.

Lemma string_take_app (name s : string) :
  string_take (String.length (name +:+ s) - String.length s) (name +:+ s) = name.
Proof.
  induction name as [|c name IH].
  - change ("" +:+ s) with s. rewrite Nat.sub_diag. by destruct s.
  - change (String c name +:+ s) with (String c (name +:+ s)).
    assert (String.length s ≤ String.length (name +:+ s))%nat as Hle.
    { clear. induction name; simpl; [done | lia]. }
    simpl String.length. rewrite Nat.sub_succ_l by done. simpl. by rewrite IH.
Qed.

(** [(temp_dir / f"{name}.zip").with_suffix("")] is [temp_dir / name], unless
    the name is empty: then [".zip"] has no suffix and stays. *)
Lemma with_suffix_empty_zip (temp_dir : path) (name : string) :
  pathlib.with_suffix_empty (pathlib.joinpath temp_dir (name +:+ ".zip")) =
    temp_dir ++ [if String.eqb name "" then ".zip" else name].
Proof.
  unfold pathlib.with_suffix_empty, pathlib.joinpath.
  rewrite last_snoc, removelast_last.
  unfold pathlib.drop_suffix, pathlib.suffix_of. rewrite rpartition_dot_zip.
  destruct name as [|c name]; [reflexivity |]. simpl "||".
  change (String.eqb (String c name) "") with false.
  change (String.eqb ("." +:+ "zip") "") with false. cbv iota.
  f_equal. f_equal. apply (string_take_app (String c name) ".zip").
Qed.

Lemma handle_response_errors_state (self : RemoteRuntime.t) response (w : World) :
  ∃ r, RemoteRuntime._handle_response_errors self response w = (r, w).
Proof.
  unfold RemoteRuntime._handle_response_errors, raise_for_status, bind, lift.
  destruct (requests.status_code response =? 511)%Z.
  - destruct (requests.as_ExceptionTransfer response) as [e|t]; [eauto |].
    destruct (handle_transfer_exception_raises self t w) as [e ->]. eauto.
  - unfold ret at 1.
    destruct ((400 <=? requests.status_code response)
              && (requests.status_code response <? 600))%Z; unfold raise, ret; eauto.
Qed.

Lemma deliver_state (self : RemoteRuntime.t) q (w : World) :
  ∃ r, deliver self q w =
         (r, mkWorld (modules w) (fs w) (tempnames w) (archive_fault w)
               (tail (replies w)) (trace w ++ [Sent q])).
Proof.
  unfold deliver, bind at 1, round_trip.
  destruct (replies w) as [|[e|response] rest]; simpl; [eauto | eauto |].
  unfold bind.
  match goal with
  | |- context [RemoteRuntime._handle_response_errors self response ?w0] =>
      destruct (handle_response_errors_state self response w0) as [[e|[]] ->]
  end; unfold lift; eauto.
Qed.

Lemma rmtree_restores (m m2 : gmap path node) (t : path) :
  fresh m t →
  (∀ q, ¬ t `prefix_of` q → m2 !! q = m !! q) →
  filter (λ kv : path * node, ¬ t `prefix_of` kv.1) m2 = m.
Proof.
  intros Hfresh Hsame. apply map_eq; intros q.
  destruct (decide (t `prefix_of` q)) as [Hp|Hp].
  - rewrite (Hfresh q Hp). apply map_lookup_filter_None.
    right. intros x _ Hn. by apply Hn.
  - rewrite <- (Hsame q Hp). destruct (m2 !! q) as [x|] eqn:Hq.
    + by apply map_lookup_filter_Some.
    + apply map_lookup_filter_None. by left.
Qed.

Lemma upload_file (self : RemoteRuntime.t) (request : UploadRequest.t) (w : World) :
  is_dir w (UploadRequest.source_path request) = false →
  RemoteRuntime.upload self request w =
    (file <- open_rb (UploadRequest.source_path request) ;;
     deliver self (upload_post self request file "false")) w.
Proof.
  intros H. unfold RemoteRuntime.upload, bind at 1, get. rewrite H. reflexivity.
Qed.

Lemma upload_directory (self : RemoteRuntime.t) (request : UploadRequest.t)
    (w : World) :
  is_dir w (UploadRequest.source_path request) = true →
  RemoteRuntime.upload self request w =
    with_TemporaryDirectory (λ temp_dir,
      let zip_path :=
        pathlib.joinpath temp_dir
          (pathlib.name (UploadRequest.source_path request) +:+ ".zip") in
      make_archive (pathlib.with_suffix_empty zip_path)
        (UploadRequest.source_path request) ;;;
      file <- open_rb zip_path ;;
      deliver self (upload_post self request file "true")) w.
Proof.
  intros H. unfold RemoteRuntime.upload, bind at 1, get. rewrite H. reflexivity.
Qed.

(** Every path of [upload].  For a directory: the archive is made under the
    temporary directory, what is sent (if anything) is the bundle with
    [unzip] "true" and the request's target path, and the temporary
    directory is removed whether the operation returns or raises, leaving
    the file system as it was; the transfer is made when the archive meets
    no fault and the directory has a final name.  For any other source: it
    is sent as it is with [unzip] "false", and no temporary location is
    used.  A result is only returned after the transfer. *)
Lemma upload_bundles_directories_and_cleans_up
    (self : RemoteRuntime.t) (request : UploadRequest.t) (w w' : World)
    (r : exc + UploadResponse.t) :
  RemoteRuntime.upload self request w = (r, w') →
  let source := UploadRequest.source_path request in
  (is_dir w source = true →
   ∀ temp_dir rest,
     tempnames w = temp_dir :: rest →
     fresh (fs w) temp_dir →
     let base :=
       pathlib.with_suffix_empty
         (pathlib.joinpath temp_dir (pathlib.name source +:+ ".zip")) in
     let bundle := Archive (members_of (<[temp_dir := Dir]> (fs w)) source) in
     let transferred :=
       trace w ++ [Mkdtemp temp_dir; MakeArchive base source;
                   Sent (upload_post self request bundle "true");
                   Rmtree temp_dir] in
     fs w' = fs w
     ∧ temp_dir `prefix_of` base
     ∧ (trace w' = transferred
        ∨ trace w' = trace w ++ [Mkdtemp temp_dir; MakeArchive base source;
                                 Rmtree temp_dir])
     ∧ ((∃ v, r = inr v) → trace w' = transferred)
     ∧ (archive_fault w = None → pathlib.name source ≠ "" →
        trace w' = transferred))
  ∧ (is_dir w source = false →
     fs w' = fs w
     ∧ tempnames w' = tempnames w
     ∧ (∀ c, fs w !! source = Some (File c) →
             trace w' = trace w ++ [Sent (upload_post self request c "false")])
     ∧ (fs w !! source = None → trace w' = trace w ∧ ∃ e, r = inl e)).
Proof.
  intros Hup source. split.
  - intros Hdir temp_dir rest Htemp Hfresh base bundle transferred.
    rewrite upload_directory in Hup by done.
    unfold with_TemporaryDirectory in Hup. rewrite Htemp in Hup.
    fold source in Hup. fold base in Hup.
    assert (Hbase : temp_dir `prefix_of` base).
    { unfold base. rewrite with_suffix_empty_zip. by apply prefix_app_r. }
    unfold bind at 1, make_archive, bind at 1, get, bind at 1, emit in Hup.
    cbn [archive_fault trace fs modules tempnames replies] in Hup.
    destruct (archive_fault w) as [e|] eqn:Hfault.
    { unfold raise in Hup. cbn in Hup. injection Hup as <- <-. cbn.
      split; [|split; [done|]].
      - apply rmtree_restores; [done |].
        intros q Hq. rewrite lookup_insert_ne; [done |].
        intros ->. apply Hq. reflexivity.
      - split; [right; by rewrite <- !app_assoc |].
        split; [intros [v [=]] | done]. }
    unfold set_fs in Hup. cbn [archive_fault trace fs modules tempnames replies] in Hup.
    set (written := removelast base ++ [pathlib.name base +:+ ".zip"]) in *.
    set (zip_path := pathlib.joinpath temp_dir (pathlib.name source +:+ ".zip")) in *.
    assert (Hwritten : temp_dir `prefix_of` written ∧ written ≠ temp_dir).
    { unfold written, base, zip_path. rewrite with_suffix_empty_zip.
      rewrite removelast_last. split; [by apply prefix_app_r |].
      intros Heq. apply (f_equal length) in Heq. rewrite length_app in Heq.
      simpl in Heq. lia. }
    assert (Hzip : temp_dir `prefix_of` zip_path ∧ zip_path ≠ temp_dir).
    { unfold zip_path, pathlib.joinpath. split; [by apply prefix_app_r |].
      intros Heq. apply (f_equal length) in Heq. rewrite length_app in Heq.
      simpl in Heq. lia. }
    assert (Hrestore : ∀ m2 : gmap path node,
              (∀ q, ¬ temp_dir `prefix_of` q → m2 !! q = fs w !! q) →
              filter (λ kv : path * node, ¬ temp_dir `prefix_of` kv.1) m2 = fs w)
      by (intros m2; by apply rmtree_restores).
    assert (Hsame : ∀ q, ¬ temp_dir `prefix_of` q →
              (<[written := File bundle]> (<[temp_dir := Dir]> (fs w))) !! q
              = fs w !! q).
    { intros q Hq. rewrite !lookup_insert_ne; [done | |].
      - intros E. apply Hq. by rewrite <- E.
      - intros E. apply Hq. rewrite <- E. apply Hwritten. }
    unfold bind at 1, open_rb in Hup.
    cbn [archive_fault trace fs modules tempnames replies] in Hup.
    destruct (decide (written = zip_path)) as [Heq|Hne].
    + rewrite Heq, lookup_insert_eq in Hup.
      match type of Hup with
      | context [deliver self ?q ?w0] =>
          destruct (deliver_state self q w0) as [r0 Hd]; rewrite Hd in Hup
      end.
      cbn in Hup. injection Hup as <- <-. cbn.
      assert (Htr : (((trace w ++ [Mkdtemp temp_dir]) ++ [MakeArchive base source])
                     ++ [Sent (upload_post self request bundle "true")])
                    ++ [Rmtree temp_dir] = transferred)
        by (unfold transferred; by rewrite <- !app_assoc).
      split; [apply Hrestore; by rewrite <- Heq |].
      split; [done |]. split; [by left |]. split; done.
    + rewrite lookup_insert_ne in Hup by done.
      rewrite lookup_insert_ne in Hup by (intros E; by apply Hzip).
      rewrite (Hfresh zip_path) in Hup by apply Hzip.
      cbn in Hup. injection Hup as <- <-. cbn.
      split; [by apply Hrestore |]. split; [done |].
      split; [right; by rewrite <- !app_assoc |].
      split; [intros [v [=]] |].
      intros _ Hname. exfalso. apply Hne.
      unfold written, base, zip_path. rewrite with_suffix_empty_zip.
      rewrite removelast_last. unfold pathlib.name at 1. rewrite last_snoc. simpl.
      fold source. destruct (pathlib.name source) as [|c n]; [done | reflexivity].
  - intros Hfile. rewrite upload_file in Hup by done. fold source in Hup.
    unfold bind at 1, open_rb in Hup.
    unfold is_dir in Hfile. fold source in Hfile.
    destruct (fs w !! source) as [[c|]|] eqn:Hsrc; [| discriminate |].
    + destruct (deliver_state self (upload_post self request c "false") w)
        as [r0 Hd].
      rewrite Hd in Hup. injection Hup as <- <-. cbn.
      split; [done |]. split; [done |]. split; [by intros c' [= <-] | done].
    + injection Hup as <- <-.
      split; [done |]. split; [done |]. split; [done |]. eauto.
Qed.

Lemma scenario_temp_dir_is_fresh :
  fresh RemoteScenario.files ["tmp"; "x1"].
Proof.
  intros q [k ->]. unfold RemoteScenario.files. simpl.
  rewrite !lookup_insert_ne by discriminate. apply lookup_empty.
Qed.

Lemma upload_bundles_directories_and_cleans_up_witness :
  let w := RemoteScenario.world [inr RemoteScenario.ok_upload] in
  let request := UploadRequest.mk ["d"] "/srv/d" in
  let w' := (RemoteRuntime.upload RemoteScenario.client request w).2 in
  fs w' = fs w
  ∧ trace w' =
      [Mkdtemp ["tmp"; "x1"];
       MakeArchive ["tmp"; "x1"; "d"] ["d"];
       Sent (requests.PostUpload "http://127.0.0.1:8000/upload"
               (Archive [(["a.txt"], Bytes "A")]) "/srv/d" "true");
       Rmtree ["tmp"; "x1"]].
Proof.
  intros w request w'.
  destruct (upload_bundles_directories_and_cleans_up
              RemoteScenario.client request w w'
              (RemoteRuntime.upload RemoteScenario.client request w).1
              (surjective_pairing _)) as [Hdir _].
  destruct (Hdir eq_refl ["tmp"; "x1"] [] eq_refl scenario_temp_dir_is_fresh)
    as (Hfs & _ & _ & _ & Htr).
  split; [exact Hfs |].
  rewrite Htr; [vm_compute; reflexivity | reflexivity | discriminate].
Defined.

(** C9, the failing input.  The source is the directory every path is
    relative to ([Path(".")]), whose final name is empty: the archive is
    written to [".zip.zip"] under the temporary directory, the open of
    [".zip"] fails, and [upload] raises [FileNotFoundError].  Nothing is
    sent, the answer of the server is still pending, and the temporary
    directory is removed. *)
Theorem C9_upload_of_nameless_directory_sends_nothing :
  let w := mkWorld RemoteScenario.sys_modules
             (<[["a.txt"] := File (Bytes "A")]> (<[[] := Dir]> ∅))
             [["tmp"; "x1"]] None [inr RemoteScenario.ok_upload] [] in
  is_dir w [] = true
  ∧ (RemoteRuntime.upload RemoteScenario.client (UploadRequest.mk [] "/srv") w).1
    = inl (Exc FileNotFoundError ".zip")
  ∧ trace (RemoteRuntime.upload RemoteScenario.client
             (UploadRequest.mk [] "/srv") w).2
    = [Mkdtemp ["tmp"; "x1"]; MakeArchive ["tmp"; "x1"; ".zip"] [];
       Rmtree ["tmp"; "x1"]]
  ∧ replies (RemoteRuntime.upload RemoteScenario.client
               (UploadRequest.mk [] "/srv") w).2
    = [inr RemoteScenario.ok_upload]
  ∧ fs (RemoteRuntime.upload RemoteScenario.client
          (UploadRequest.mk [] "/srv") w).2
    = fs w.
Proof. vm_compute. repeat split. Qed.

(** * Further properties of the session engine *)

(** ** Session.start *)

(** When the shell answers both waits, [start] reports success with the two
    captured texts joined by a separator line, and the session holds the
    child with the prompt configured: four exchanges were made and the
    answers not consumed are still pending. *)
Theorem start_succeeds_when_both_waits_match
    (s : Session.t) (child : pexpect.spawn) i b1 j b2 rest :
  pexpect.pending child =
    pexpect.Matched i b1 :: pexpect.Matched j b2 :: rest →
  Session.start (inr child) s =
    (inr (CreateShellResponse.mk true ""
            (b1 +:+ nl +:+ "---" +:+ nl +:+ b2)),
     Session.mk (Session._ps1 s)
       (Some (pexpect.Spawn
                (pexpect.log child ++
                   [pexpect.Sendline "echo 'fully_initialized'";
                    pexpect.Expect ["fully_initialized"] Session.timeout_1;
                    pexpect.Sendline
                      ("umask 002; export PS1='" +:+ Session._ps1 s
                       +:+ "'; export PS2=''");
                    pexpect.Expect [Session._ps1 s] Session.timeout_1])
                rest (Some b2)))).
Proof.
  intros Hp. destruct child as [lg pend bf]; simpl in Hp; subst pend.
  destruct s as [ps o]. unfold_py. norm_log.
Qed.

Lemma start_succeeds_when_both_waits_match_witness :
  (Session.start
     (inr (Scenario.child [pexpect.Matched 0 "fully_initialized";
                           pexpect.Matched 0 ""]))
     Session.__init__).1
  = inr (CreateShellResponse.mk true ""
           ("fully_initialized" +:+ nl +:+ "---" +:+ nl +:+ "")).
Proof.
  rewrite (start_succeeds_when_both_waits_match Session.__init__
             (Scenario.child [pexpect.Matched 0 "fully_initialized";
                              pexpect.Matched 0 ""])
             0 "fully_initialized" 0 "" [] eq_refl).
  reflexivity.
Defined.

(** Every timeout met by [start] comes back as a failure result naming the
    step that timed out; [start] never raises [pexpect.TIMEOUT].  After a
    timeout of the first wait the prompt is not configured. *)
Theorem start_returns_its_timeouts (s : Session.t) (child : pexpect.spawn) :
  (times_out (pexpect.pending child) = true →
     (Session.start (inr child) s).1 =
       inr (CreateShellResponse.mk false "timeout while initializing shell" "")
     ∧ log_of (Session.start (inr child) s).2 =
         pexpect.log child ++
           [pexpect.Sendline "echo 'fully_initialized'";
            pexpect.Expect ["fully_initialized"] Session.timeout_1])
  ∧ (∀ i b rest,
       pexpect.pending child = pexpect.Matched i b :: rest →
       times_out rest = true →
       (Session.start (inr child) s).1 =
         inr (CreateShellResponse.mk false "timeout while setting PS1" ""))
  ∧ (∀ e, (Session.start (inr child) s).1 = inl e →
          isinstance e pexpect.TIMEOUT = false).
Proof.
  destruct child as [lg pend bf]; destruct s as [ps o]. simpl.
  split; [|split].
  - intros Ht. destruct pend as [|[i b|e] rest]; try discriminate; unfold_py.
    + split; [reflexivity | unfold log_of; simpl; norm_log].
    + simpl in Ht. rewrite Ht. simpl.
      split; [reflexivity | unfold log_of; simpl; norm_log].
  - intros i b rest -> Ht. unfold_py.
    destruct rest as [|[i' b'|e] rest]; try discriminate; simpl; [reflexivity |].
    simpl in Ht. rewrite Ht. reflexivity.
  - intros e. unfold_py.
    destruct pend as [|[i b|e1] rest]; simpl; [discriminate | |].
    + destruct rest as [|[i' b'|e2] rest]; simpl; [discriminate.. |].
      destruct (isinstance e2 pexpect.TIMEOUT) eqn:H2; simpl; [discriminate |].
      by intros [= <-].
    + destruct (isinstance e1 pexpect.TIMEOUT) eqn:H1; simpl; [discriminate |].
      by intros [= <-].
Qed.

Lemma start_returns_its_timeouts_witness :
  (Session.start
     (inr (Scenario.child [pexpect.Matched 0 ""; pexpect.Raised Scenario.a_timeout]))
     Session.__init__).1
  = inr (CreateShellResponse.mk false "timeout while setting PS1" "").
Proof.
  destruct (start_returns_its_timeouts Session.__init__
              (Scenario.child [pexpect.Matched 0 "";
                               pexpect.Raised Scenario.a_timeout]))
    as (_ & H & _).
  apply (H 0 "" [pexpect.Raised Scenario.a_timeout]); reflexivity.
Defined.

(** A response returned by [start] reports failure exactly when it carries a
    reason, a failure carries no output, and in both cases the session is
    left holding the spawned child. *)
Theorem start_response_is_consistent
    (spawned : exc + pexpect.spawn) (s s' : Session.t)
    (resp : CreateShellResponse.t) :
  Session.start spawned s = (inr resp, s') →
  (CreateShellResponse.success resp = false
   ↔ CreateShellResponse.failure_reason resp ≠ "")
  ∧ (CreateShellResponse.success resp = false →
     CreateShellResponse.output resp = "")
  ∧ ∃ child sh, spawned = inr child ∧ Session.shell s' = Some sh
                ∧ pexpect.log child `prefix_of` pexpect.log sh.
Proof.
  destruct spawned as [e|[lg pend bf]]; destruct s as [ps o].
  - unfold Session.start, bind, get, raise; simpl. discriminate.
  - unfold_py.
    assert (Hpre : ∀ l : list pexpect.event, lg `prefix_of` (lg ++ l))
      by (intros l; by apply prefix_app_r).
    destruct pend as [|[i b|e] rest]; simpl.
    + intros [= <- <-]. simpl.
      split; [split; [discriminate | done] |]. split; [done |].
      eexists _, _. split; [reflexivity |]. split; [reflexivity |].
      simpl. rewrite <- ?app_assoc. apply Hpre.
    + destruct rest as [|[i' b'|e'] rest]; simpl.
      * intros [= <- <-]. simpl.
        split; [split; [discriminate | done] |]. split; [done |].
        eexists _, _. split; [reflexivity |]. split; [reflexivity |].
        simpl. rewrite <- ?app_assoc. apply Hpre.
      * intros [= <- <-]. simpl.
        split; [split; [discriminate | intros H; by elim H] |].
        split; [discriminate |].
        eexists _, _. split; [reflexivity |]. split; [reflexivity |].
        simpl. rewrite <- ?app_assoc. apply Hpre.
      * destruct (isinstance e' pexpect.TIMEOUT); simpl; [|discriminate].
        intros [= <- <-]. simpl.
        split; [split; [discriminate | done] |]. split; [done |].
        eexists _, _. split; [reflexivity |]. split; [reflexivity |].
        simpl. rewrite <- ?app_assoc. apply Hpre.
    + destruct (isinstance e pexpect.TIMEOUT); simpl; [|discriminate].
      intros [= <- <-]. simpl.
      split; [split; [discriminate | done] |]. split; [done |].
      eexists _, _. split; [reflexivity |]. split; [reflexivity |].
      simpl. rewrite <- ?app_assoc. apply Hpre.
Qed.

Lemma start_response_is_consistent_witness :
  CreateShellResponse.success
    (CreateShellResponse.mk false "timeout while initializing shell" "") = false
  ↔ CreateShellResponse.failure_reason
      (CreateShellResponse.mk false "timeout while initializing shell" "") ≠ "".
Proof.
  apply (start_response_is_consistent (inr (Scenario.child []))
           Session.__init__ Scenario.failed_start
           (CreateShellResponse.mk false "timeout while initializing shell" "")).
  vm_compute. reflexivity.
Defined.

(** ** Session.close *)

(** [close] always returns; it tells the child to close exactly when there
    is one, and leaves the session without a shell.  Closing again changes
    nothing, and every later [run] gets the "-300" result without anything
    being sent. *)
Theorem close_releases_the_shell (s : Session.t) :
  (Session.close s).1 = inr CloseResponse.mk
  ∧ Session.shell (Session.close s).2 = None
  ∧ Session._ps1 (Session.close s).2 = Session._ps1 s
  ∧ Session.close (Session.close s).2 =
      (inr CloseResponse.mk, (Session.close s).2)
  ∧ ∀ a : Action.t,
      Session.run a (Session.close s).2 =
        (inr (Observation.mk "" "-300" "shell not initialized" ""),
         (Session.close s).2).
Proof.
  destruct s as [ps [[lg pend bf]|]]; repeat split; reflexivity.
Qed.

(** ** Session.run: the interactive-quit branch *)

Section RunQuit.
Variables (a : Action.t) (ps : string) (lg : list pexpect.event)
          (bf : option string).

Let s (pend : list pexpect.outcome) : Session.t :=
  Session.mk ps (Some (pexpect.Spawn lg pend bf)).

Let quit_log : list pexpect.event :=
  lg ++ [pexpect.Sendline (Action.command a);
         pexpect.Expect (Action.expect a ++ [ps]) (Action.timeout a);
         pexpect.Setecho false;
         pexpect.Waitnoecho;
         pexpect.Sendline
           "stty -echo; echo 'doneremovingecho'; echo 'doneremovingecho'";
         pexpect.Expect ["doneremovingecho"] Session.timeout_1].

Lemma run_quit_first_wait i out pat rest :
  (Action.expect a ++ [ps]) !! i = Some pat →
  Action.is_interactive_quit a = true →
  Action.is_interactive_command a = false →
  Session.run a (s (pexpect.Matched i out :: rest)) =
    match rest with
    | [] =>
        (inl (Exc pexpect.TIMEOUT "Timeout exceeded."),
         Session.mk ps (Some (pexpect.Spawn quit_log [] (Some out))))
    | pexpect.Raised e :: rest' =>
        (inl e, Session.mk ps (Some (pexpect.Spawn quit_log rest' (Some out))))
    | pexpect.Matched k1 b1 :: rest' =>
        let lg' := quit_log ++ [pexpect.Expect [ps] Session.timeout_1] in
        match rest' with
        | [] =>
            (inl (Exc pexpect.TIMEOUT "Timeout exceeded."),
             Session.mk ps (Some (pexpect.Spawn lg' [] (Some b1))))
        | pexpect.Raised e :: rest'' =>
            (inl e, Session.mk ps (Some (pexpect.Spawn lg' rest'' (Some b1))))
        | pexpect.Matched k2 b2 :: rest'' =>
            (inr (Observation.mk out "0" "" pat),
             Session.mk ps (Some (pexpect.Spawn lg' rest'' (Some b2))))
        end
    end.
Proof.
  intros Hi Hq Hc. unfold s, quit_log. unfold_py. rewrite Hi, Hq, Hc. simpl.
  destruct rest as [|[k1 b1|e1] [|[k2 b2|e2] rest]]; simpl; norm_log.
Qed.

Lemma run_both_flags i out pat rest :
  (Action.expect a ++ [ps]) !! i = Some pat →
  Action.is_interactive_quit a = true →
  Action.is_interactive_command a = true →
  Session.run a (s (pexpect.Matched i out :: rest)) =
    (inl (Exc AssertionError ""),
     Session.mk ps
       (Some (pexpect.Spawn
                (lg ++ [pexpect.Sendline (Action.command a);
                        pexpect.Expect (Action.expect a ++ [ps])
                          (Action.timeout a)])
                rest (Some out)))).
Proof.
  intros Hi Hq Hc. unfold s. unfold_py. rewrite Hi, Hq, Hc. simpl. norm_log.
Qed.
End RunQuit.

(** An interactive quit whose three waits are answered returns the text
    captured by the first wait with the synthetic exit code "0"; echo is
    switched off and the end marker and the prompt are each waited for
    once. *)
Theorem run_interactive_quit_resynchronises
    (a : Action.t) (s : Session.t) (sh : pexpect.spawn)
    i out k1 b1 k2 b2 rest pat :
  Session.shell s = Some sh →
  pexpect.pending sh =
    pexpect.Matched i out :: pexpect.Matched k1 b1
      :: pexpect.Matched k2 b2 :: rest →
  expect_strings a s !! i = Some pat →
  Action.is_interactive_quit a = true →
  Action.is_interactive_command a = false →
  ∃ s',
    Session.run a s = (inr (Observation.mk out "0" "" pat), s')
    ∧ pending_of s' = rest
    ∧ log_of s' =
        pexpect.log sh ++
          [pexpect.Sendline (Action.command a);
           pexpect.Expect (expect_strings a s) (Action.timeout a);
           pexpect.Setecho false;
           pexpect.Waitnoecho;
           pexpect.Sendline
             "stty -echo; echo 'doneremovingecho'; echo 'doneremovingecho'";
           pexpect.Expect ["doneremovingecho"] Session.timeout_1;
           pexpect.Expect [Session._ps1 s] Session.timeout_1].
Proof.
  intros Hs Hp Hi Hq Hc. rewrite (session_eta s sh Hs), Hp.
  unfold expect_strings in *.
  erewrite run_quit_first_wait by eassumption. simpl.
  eexists; split; [reflexivity |]. split; [reflexivity |].
  unfold log_of; simpl. norm_log.
Qed.

Lemma run_interactive_quit_resynchronises_witness :
  ∃ s',
    Session.run
      (Action.mk "main" "exit()" (QArith_base.Qmake 1 1) [] false true)
      (Scenario.started [pexpect.Matched 0 ""; pexpect.Matched 0 "";
                         pexpect.Matched 0 "doneremovingecho"])
    = (inr (Observation.mk "" "0" "" "SHELLPS1PREFIX"), s')
    ∧ pending_of s' = [].
Proof.
  destruct (run_interactive_quit_resynchronises
              (Action.mk "main" "exit()" (QArith_base.Qmake 1 1) [] false true)
              (Scenario.started [pexpect.Matched 0 ""; pexpect.Matched 0 "";
                                 pexpect.Matched 0 "doneremovingecho"])
              (pexpect.Spawn
                 [pexpect.Sendline "echo 'fully_initialized'";
                  pexpect.Expect ["fully_initialized"] Session.timeout_1;
                  pexpect.Sendline
                    "umask 002; export PS1='SHELLPS1PREFIX'; export PS2=''";
                  pexpect.Expect ["SHELLPS1PREFIX"] Session.timeout_1]
                 [pexpect.Matched 0 ""; pexpect.Matched 0 "";
                  pexpect.Matched 0 "doneremovingecho"]
                 (Some ""))
              0 "" 0 "" 0 "doneremovingecho" [] "SHELLPS1PREFIX"
              eq_refl eq_refl eq_refl eq_refl eq_refl)
    as (s' & Hrun & Hpend & _).
  exists s'. split; [exact Hrun | exact Hpend].
Defined.

(** The two waits of an interactive quit are not guarded: when either of
    them times out, [run] raises [pexpect.TIMEOUT] instead of returning a
    result. *)
Theorem run_interactive_quit_raises_on_timeout
    (a : Action.t) (s : Session.t) (sh : pexpect.spawn) i out rest pat :
  Session.shell s = Some sh →
  pexpect.pending sh = pexpect.Matched i out :: rest →
  expect_strings a s !! i = Some pat →
  Action.is_interactive_quit a = true →
  Action.is_interactive_command a = false →
  (times_out rest = true
   ∨ ∃ k b rest', rest = pexpect.Matched k b :: rest' ∧ times_out rest' = true) →
  ∃ e, (Session.run a s).1 = inl e ∧ isinstance e pexpect.TIMEOUT = true.
Proof.
  intros Hs Hp Hi Hq Hc Ht. rewrite (session_eta s sh Hs), Hp.
  unfold expect_strings in *.
  erewrite run_quit_first_wait by eassumption.
  destruct Ht as [Ht | (k & b & rest' & -> & Ht)].
  - destruct rest as [|[k b|e] rest]; try discriminate; simpl; eauto.
  - destruct rest' as [|[k' b'|e] rest']; try discriminate; simpl; eauto.
Qed.

Lemma run_interactive_quit_raises_on_timeout_witness :
  ∃ e,
    (Session.run
       (Action.mk "main" "exit()" (QArith_base.Qmake 1 1) [] false true)
       (Scenario.started [pexpect.Matched 0 ""; pexpect.Matched 0 ""])).1 = inl e
    ∧ isinstance e pexpect.TIMEOUT = true.
Proof.
  apply (run_interactive_quit_raises_on_timeout
           (Action.mk "main" "exit()" (QArith_base.Qmake 1 1) [] false true)
           (Scenario.started [pexpect.Matched 0 ""; pexpect.Matched 0 ""])
           (pexpect.Spawn
              [pexpect.Sendline "echo 'fully_initialized'";
               pexpect.Expect ["fully_initialized"] Session.timeout_1;
               pexpect.Sendline
                 "umask 002; export PS1='SHELLPS1PREFIX'; export PS2=''";
               pexpect.Expect ["SHELLPS1PREFIX"] Session.timeout_1]
              [pexpect.Matched 0 ""; pexpect.Matched 0 ""] (Some ""))
           0 "" [pexpect.Matched 0 ""] "SHELLPS1PREFIX"
           eq_refl eq_refl eq_refl eq_refl eq_refl).
  right. exists 0, "", []. split; reflexivity.
Defined.

(** An action carrying both flags fails the assertion of the quit branch,
    but only after its command was sent to the shell and waited for. *)
Theorem run_rejects_both_flags_after_sending
    (a : Action.t) (s : Session.t) (sh : pexpect.spawn) i out rest pat :
  Session.shell s = Some sh →
  pexpect.pending sh = pexpect.Matched i out :: rest →
  expect_strings a s !! i = Some pat →
  Action.is_interactive_quit a = true →
  Action.is_interactive_command a = true →
  ∃ s',
    Session.run a s = (inl (Exc AssertionError ""), s')
    ∧ log_of s' =
        pexpect.log sh ++
          [pexpect.Sendline (Action.command a);
           pexpect.Expect (expect_strings a s) (Action.timeout a)]
    ∧ pending_of s' = rest.
Proof.
  intros Hs Hp Hi Hq Hc. rewrite (session_eta s sh Hs), Hp.
  unfold expect_strings in *.
  erewrite run_both_flags by eassumption.
  eexists; split; [reflexivity |]. split; reflexivity.
Qed.

Lemma run_rejects_both_flags_after_sending_witness :
  (Session.run
     (Action.mk "main" "vim" (QArith_base.Qmake 1 1) [] true true)
     (Scenario.started [pexpect.Matched 0 ""])).1
  = inl (Exc AssertionError "").
Proof.
  destruct (run_rejects_both_flags_after_sending
              (Action.mk "main" "vim" (QArith_base.Qmake 1 1) [] true true)
              (Scenario.started [pexpect.Matched 0 ""])
              (pexpect.Spawn
                 [pexpect.Sendline "echo 'fully_initialized'";
                  pexpect.Expect ["fully_initialized"] Session.timeout_1;
                  pexpect.Sendline
                    "umask 002; export PS1='SHELLPS1PREFIX'; export PS2=''";
                  pexpect.Expect ["SHELLPS1PREFIX"] Session.timeout_1]
                 [pexpect.Matched 0 ""] (Some ""))
              0 "" [] "SHELLPS1PREFIX"
              eq_refl eq_refl eq_refl eq_refl eq_refl) as (s' & Hrun & _).
  rewrite Hrun. reflexivity.
Defined.

(** An error of the command's wait other than a timeout (the child exited,
    say) is not turned into a result: [run] raises it, and the session
    keeps its shell. *)
Theorem run_raises_errors_other_than_timeout
    (a : Action.t) (s : Session.t) (sh : pexpect.spawn) e rest :
  Session.shell s = Some sh →
  pexpect.pending sh = pexpect.Raised e :: rest →
  isinstance e pexpect.TIMEOUT = false →
  ∃ s', Session.run a s = (inl e, s')
        ∧ Session.shell s' ≠ None
        ∧ pending_of s' = rest.
Proof.
  intros Hs Hp He. rewrite (session_eta s sh Hs), Hp.
  rewrite run_raised, He.
  eexists; split; [reflexivity |]. split; [discriminate | reflexivity].
Qed.

Lemma run_raises_errors_other_than_timeout_witness :
  (Session.run (Scenario.action "ls")
     (Scenario.started [pexpect.Raised (Exc pexpect.EOF "End Of File (EOF).")])).1
  = inl (Exc pexpect.EOF "End Of File (EOF).").
Proof.
  destruct (run_raises_errors_other_than_timeout
              (Scenario.action "ls")
              (Scenario.started
                 [pexpect.Raised (Exc pexpect.EOF "End Of File (EOF).")])
              (pexpect.Spawn
                 [pexpect.Sendline "echo 'fully_initialized'";
                  pexpect.Expect ["fully_initialized"] Session.timeout_1;
                  pexpect.Sendline
                    "umask 002; export PS1='SHELLPS1PREFIX'; export PS2=''";
                  pexpect.Expect ["SHELLPS1PREFIX"] Session.timeout_1]
                 [pexpect.Raised (Exc pexpect.EOF "End Of File (EOF).")]
                 (Some ""))
              (Exc pexpect.EOF "End Of File (EOF).") []
              eq_refl eq_refl eq_refl) as (s' & Hrun & _).
  rewrite Hrun. reflexivity.
Defined.

(** ** Session.run: the output of an interactive command *)

Lemma lstrip_idemp (s : string) : lstrip (lstrip s) = lstrip s.
Proof.
  induction s as [|c s IH]; [reflexivity |].
  unfold lstrip; fold lstrip. destruct (isspace c) eqn:Hc; [exact IH |].
  unfold lstrip; fold lstrip. by rewrite Hc.
Qed.

Lemma lstrip_length (s : string) :
  (String.length (lstrip s) ≤ String.length s)%nat.
Proof.
  induction s as [|c s IH]; [done |].
  unfold lstrip; fold lstrip. destruct (isspace c); simpl; lia.
Qed.

Lemma lstrip_fixed_app (p r : string) : lstrip p = p → p ≠ "" →
  lstrip (p +:+ r) = p +:+ r.
Proof.
  destruct p as [|c p]; [done |]. intros H _.
  change (String c p +:+ r) with (String c (p +:+ r)).
  unfold lstrip in *; fold lstrip in *.
  destruct (isspace c); [|reflexivity].
  pose proof (lstrip_length p) as Hl. rewrite H in Hl. simpl in Hl. lia.
Qed.

Lemma lstrip_blanks_app (ws s : string) :
  all_space ws = true → lstrip (ws +:+ s) = lstrip s.
Proof.
  induction ws as [|c ws IH]; [done |]. simpl all_space.
  intros [Hc Hws]%andb_true_iff.
  change (String c ws +:+ s) with (String c (ws +:+ s)).
  unfold lstrip at 1; fold lstrip. rewrite Hc. by apply IH.
Qed.

Lemma prefix_app_same (p r : string) : String.prefix p (p +:+ r) = true.
Proof.
  induction p as [|c p IH]; [by destruct r |].
  change (String c p +:+ r) with (String c (p +:+ r)). simpl.
  destruct (Ascii.ascii_dec c c); [exact IH | done].
Qed.

Lemma string_drop_app (p r : string) :
  string_drop (String.length p) (p +:+ r) = r.
Proof. induction p as [|c p IH]; [by destruct r | exact IH]. Qed.

Lemma removeprefix_app (p r : string) : removeprefix p (p +:+ r) = r.
Proof. unfold removeprefix. by rewrite prefix_app_same, string_drop_app. Qed.

Lemma strip_lstrip (s : string) : strip (lstrip s) = strip s.
Proof. unfold strip. by rewrite lstrip_idemp. Qed.

(** When the terminal echoes the command (after blanks, if any) ahead of
    the program's own text, the Observation of an interactive command holds
    the program's text alone, stripped. *)
Theorem run_interactive_command_drops_the_echo
    (a : Action.t) (s : Session.t) (sh : pexpect.spawn)
    i blanks text rest pat :
  Session.shell s = Some sh →
  pexpect.pending sh =
    pexpect.Matched i (blanks +:+ Action.command a +:+ text) :: rest →
  expect_strings a s !! i = Some pat →
  Action.is_interactive_command a = true →
  Action.is_interactive_quit a = false →
  all_space blanks = true →
  lstrip (Action.command a) = Action.command a →
  (Session.run a s).1 = inr (Observation.mk (strip text) "0" "" pat).
Proof.
  intros Hs Hp Hi Hc Hq Hb Hcmd. rewrite (session_eta s sh Hs), Hp.
  unfold expect_strings in *.
  erewrite run_interactive_command by eassumption. simpl.
  rewrite lstrip_blanks_app by done.
  destruct (decide (Action.command a = "")) as [He|Hne].
  - rewrite He. change ("" +:+ text) with text.
    change (removeprefix "" (lstrip text)) with
      (if String.prefix "" (lstrip text) then lstrip text else lstrip text).
    destruct (String.prefix "" (lstrip text)); by rewrite strip_lstrip.
  - rewrite lstrip_fixed_app by done. by rewrite removeprefix_app.
Qed.

Lemma run_interactive_command_drops_the_echo_witness :
  (Session.run
     (Action.mk "main" "python3" (QArith_base.Qmake 1 1) [">>> "] true false)
     (Scenario.started
        [pexpect.Matched 0 (" " +:+ "python3" +:+ (nl +:+ "Python 3.11"))])).1
  = inr (Observation.mk "Python 3.11" "0" "" ">>> ").
Proof.
  apply (run_interactive_command_drops_the_echo
           (Action.mk "main" "python3" (QArith_base.Qmake 1 1) [">>> "]
              true false)
           (Scenario.started
              [pexpect.Matched 0 (" " +:+ "python3" +:+ (nl +:+ "Python 3.11"))])
           (pexpect.Spawn
              [pexpect.Sendline "echo 'fully_initialized'";
               pexpect.Expect ["fully_initialized"] Session.timeout_1;
               pexpect.Sendline
                 "umask 002; export PS1='SHELLPS1PREFIX'; export PS2=''";
               pexpect.Expect ["SHELLPS1PREFIX"] Session.timeout_1]
              [pexpect.Matched 0 (" " +:+ "python3" +:+ (nl +:+ "Python 3.11"))]
              (Some ""))
           0 " " (nl +:+ "Python 3.11") [] ">>> ");
    reflexivity.
Defined.

(** When the captured text does not start with the command (blanks apart),
    nothing is cut out of it: the output is the whole text, stripped. *)
Theorem run_interactive_command_keeps_text_without_echo
    (a : Action.t) (s : Session.t) (sh : pexpect.spawn) i out rest pat :
  Session.shell s = Some sh →
  pexpect.pending sh = pexpect.Matched i out :: rest →
  expect_strings a s !! i = Some pat →
  Action.is_interactive_command a = true →
  Action.is_interactive_quit a = false →
  String.prefix (Action.command a) (lstrip out) = false →
  (Session.run a s).1 = inr (Observation.mk (strip out) "0" "" pat).
Proof.
  intros Hs Hp Hi Hc Hq Hpre. rewrite (session_eta s sh Hs), Hp.
  unfold expect_strings in *.
  erewrite run_interactive_command by eassumption. simpl.
  unfold removeprefix. by rewrite Hpre, strip_lstrip.
Qed.

Lemma run_interactive_command_keeps_text_without_echo_witness :
  (Session.run
     (Action.mk "main" "python3" (QArith_base.Qmake 1 1) [">>> "] true false)
     (Scenario.started [pexpect.Matched 0 "Python 3.11 "])).1
  = inr (Observation.mk "Python 3.11" "0" "" ">>> ").
Proof.
  apply (run_interactive_command_keeps_text_without_echo
           (Action.mk "main" "python3" (QArith_base.Qmake 1 1) [">>> "]
              true false)
           (Scenario.started [pexpect.Matched 0 "Python 3.11 "])
           (pexpect.Spawn
              [pexpect.Sendline "echo 'fully_initialized'";
               pexpect.Expect ["fully_initialized"] Session.timeout_1;
               pexpect.Sendline
                 "umask 002; export PS1='SHELLPS1PREFIX'; export PS2=''";
               pexpect.Expect ["SHELLPS1PREFIX"] Session.timeout_1]
              [pexpect.Matched 0 "Python 3.11 "] (Some ""))
           0 "Python 3.11 " [] ">>> ");
    reflexivity.
Defined.

(** ** Session.run: what it leaves behind *)

Ltac shell_advanced :=
  simpl; split; [reflexivity |];
  first
    [ eexists _, []; split; [reflexivity |]; split;
      [simpl; rewrite <- ?app_assoc; apply prefix_app_r; reflexivity |];
      split; [reflexivity | simpl; lia]
    | eexists _, [_]; split; [reflexivity |]; split;
      [simpl; rewrite <- ?app_assoc; apply prefix_app_r; reflexivity |];
      split; [reflexivity | simpl; lia]
    | eexists _, [_; _]; split; [reflexivity |]; split;
      [simpl; rewrite <- ?app_assoc; apply prefix_app_r; reflexivity |];
      split; [reflexivity | simpl; lia]
    | eexists _, [_; _; _]; split; [reflexivity |]; split;
      [simpl; rewrite <- ?app_assoc; apply prefix_app_r; reflexivity |];
      split; [reflexivity | simpl; lia] ].

(** Whatever the shell answers and however [run] ends, a session that held
    a shell still holds it afterwards, with the same prompt; the log of the
    shell has only grown, and at most three pending answers were consumed,
    in order. *)
Theorem run_keeps_the_shell (a : Action.t) (s : Session.t) (sh : pexpect.spawn) :
  Session.shell s = Some sh →
  Session._ps1 (Session.run a s).2 = Session._ps1 s
  ∧ ∃ sh' used,
      Session.shell (Session.run a s).2 = Some sh'
      ∧ pexpect.log sh `prefix_of` pexpect.log sh'
      ∧ pexpect.pending sh = used ++ pexpect.pending sh'
      ∧ (length used ≤ 3)%nat.
Proof.
  intros Hs. rewrite (session_eta s sh Hs).
  set (ps := Session._ps1 s). set (lg := pexpect.log sh).
  set (bf := pexpect.before sh).
  destruct (pexpect.pending sh) as [|[i out|e] rest].
  - rewrite run_silent. shell_advanced.
  - destruct ((Action.expect a ++ [ps]) !! i) as [pat|] eqn:Hi.
    2: { rewrite run_bad_index by done. shell_advanced. }
    destruct (is_normal a) eqn:Hn.
    + destruct rest as [|[j code|e] rest].
      * erewrite run_exit_code_silent by eassumption. shell_advanced.
      * destruct (blank_status code) eqn:Hb.
        -- destruct rest as [|[k code'|e] rest].
           ++ erewrite run_retry_silent by eassumption. shell_advanced.
           ++ erewrite run_retry by eassumption. shell_advanced.
           ++ erewrite run_retry_raised by eassumption. shell_advanced.
        -- erewrite run_normal by eassumption. shell_advanced.
      * erewrite run_exit_code_raised by eassumption. shell_advanced.
    + unfold is_normal in Hn.
      destruct (Action.is_interactive_quit a) eqn:Hq.
      * destruct (Action.is_interactive_command a) eqn:Hc.
        { erewrite run_both_flags by eassumption. shell_advanced. }
        erewrite run_quit_first_wait by eassumption.
        destruct rest as [|[k1 b1|e1] [|[k2 b2|e2] rest]]; shell_advanced.
      * destruct (Action.is_interactive_command a) eqn:Hc; [|discriminate].
        erewrite run_interactive_command by eassumption. shell_advanced.
  - rewrite run_raised. shell_advanced.
Qed.

Lemma run_keeps_the_shell_witness :
  Session._ps1
    (Session.run (Scenario.action "ls") Scenario.failed_start).2
  = "SHELLPS1PREFIX".
Proof.
  apply (run_keeps_the_shell (Scenario.action "ls") Scenario.failed_start
           (pexpect.Spawn
              [pexpect.Sendline "echo 'fully_initialized'";
               pexpect.Expect ["fully_initialized"] Session.timeout_1]
              [] None)).
  reflexivity.
Defined.

(** ** Runtime: the registry *)

(** [Runtime.run] concerns the target session only: every other entry of
    the registry is left as it was, and no name is added or removed,
    whether the run returns or raises. *)
Theorem runtime_run_touches_only_its_session (a : Action.t) (rt : Runtime.t) :
  (∀ name, name ≠ Action.session a →
           Runtime.sessions (Runtime.run a rt).2 !! name =
             Runtime.sessions rt !! name)
  ∧ dom (Runtime.sessions (Runtime.run a rt).2) = dom (Runtime.sessions rt).
Proof.
  unfold Runtime.run.
  destruct (Runtime.sessions rt !! Action.session a) as [s|] eqn:Hs.
  - erewrite on_session_some by exact Hs. simpl. split.
    + intros name Hne. by rewrite lookup_insert_ne.
    + apply dom_insert_lookup_L. eauto.
  - rewrite on_session_none by exact Hs. done.
Qed.

Lemma runtime_run_touches_only_its_session_witness :
  Runtime.sessions
    (Runtime.run (Scenario.action "ls") Scenario.registry_failed_start).2
    !! "other"
  = Runtime.sessions Scenario.registry_failed_start !! "other".
Proof.
  apply (runtime_run_touches_only_its_session (Scenario.action "ls")
           Scenario.registry_failed_start).
  discriminate.
Defined.

(** Creating a session under a name in use raises [AssertionError] before
    anything is spawned or stored: the registry, and with it the session
    already there, is exactly as before. *)
Theorem create_shell_rejects_a_name_in_use
    (spawned : exc + pexpect.spawn) (name : string) (rt : Runtime.t)
    (s : Session.t) :
  Runtime.sessions rt !! name = Some s →
  Runtime.create_shell spawned (CreateShellRequest.mk name) rt =
    (inl (Exc AssertionError ""), rt)
  ∧ Runtime.sessions
      (Runtime.create_shell spawned (CreateShellRequest.mk name) rt).2 !! name
    = Some s.
Proof.
  intros H. rewrite create_shell_taken by eauto. done.
Qed.

Lemma create_shell_rejects_a_name_in_use_witness :
  Runtime.create_shell (inr (Scenario.child [])) (CreateShellRequest.mk "main")
    Scenario.registry_failed_start
  = (inl (Exc AssertionError ""), Scenario.registry_failed_start).
Proof.
  apply (create_shell_rejects_a_name_in_use (inr (Scenario.child [])) "main"
           Scenario.registry_failed_start Scenario.failed_start).
  vm_compute. reflexivity.
Defined.

(** When spawning the shell itself fails, [create_shell] raises that error
    but has already stored the session: the name is taken by a session
    without a shell, on which every run returns "-300" and which blocks a
    new [create_shell] under the name. *)
Theorem create_shell_registers_before_spawning
    (e : exc) (name : string) (rt : Runtime.t) :
  Runtime.sessions rt !! name = None →
  ∃ rt',
    Runtime.create_shell (inl e) (CreateShellRequest.mk name) rt = (inl e, rt')
    ∧ Runtime.sessions rt' !! name = Some Session.__init__
    ∧ (∀ a : Action.t,
         Action.session a = name →
         (Runtime.run a rt').1 =
           inr (Observation.mk "" "-300" "shell not initialized" ""))
    ∧ (∀ spawned,
         (Runtime.create_shell spawned (CreateShellRequest.mk name) rt').1 =
           inl (Exc AssertionError "")).
Proof.
  intros H. rewrite create_shell_fresh by done.
  eexists; split; [reflexivity |]. simpl.
  assert (Hl : <[name := Session.__init__]> (Runtime.sessions rt) !! name
               = Some Session.__init__) by apply lookup_insert_eq.
  split; [exact Hl |]. split.
  - intros a <-. unfold Runtime.run.
    erewrite on_session_some by exact Hl. reflexivity.
  - intros spawned. rewrite create_shell_taken; [reflexivity |].
    simpl. rewrite Hl. eauto.
Qed.

Lemma create_shell_registers_before_spawning_witness :
  ∃ rt',
    Runtime.create_shell (inl (Exc FileNotFoundError "/bin/bash"))
      (CreateShellRequest.mk "main") Runtime.__init__
    = (inl (Exc FileNotFoundError "/bin/bash"), rt')
    ∧ Runtime.sessions rt' !! "main" = Some Session.__init__.
Proof.
  destruct (create_shell_registers_before_spawning
              (Exc FileNotFoundError "/bin/bash") "main" Runtime.__init__
              eq_refl) as (rt' & Hc & Hl & _).
  exists rt'. split; [exact Hc | exact Hl].
Defined.

(** ** Runtime.close *)

(** Closing a registered session closes it and removes its name, and
    touches no other entry; afterwards a run on the name raises [KeyError],
    and the name is free for [create_shell] again. *)
Theorem runtime_close_removes_the_session
    (name : string) (rt : Runtime.t) (s : Session.t) :
  Runtime.sessions rt !! name = Some s →
  Runtime.close (CloseRequest.mk name) rt =
    (inr CloseResponse.mk, Runtime.mk (delete name (Runtime.sessions rt)))
  ∧ (∀ a : Action.t,
       Action.session a = name →
       (Runtime.run a (Runtime.close (CloseRequest.mk name) rt).2).1 =
         inl (Exc KeyError name))
  ∧ (∀ spawned,
       (Runtime.create_shell spawned (CreateShellRequest.mk name)
          (Runtime.close (CloseRequest.mk name) rt).2).1 =
         (Session.start spawned Session.__init__).1)
  ∧ (∀ other, other ≠ name →
       Runtime.sessions (Runtime.close (CloseRequest.mk name) rt).2 !! other =
         Runtime.sessions rt !! other).
Proof.
  intros H.
  assert (Hc : Runtime.close (CloseRequest.mk name) rt =
               (inr CloseResponse.mk,
                Runtime.mk (delete name (Runtime.sessions rt)))).
  { unfold Runtime.close, bind at 1. simpl.
    erewrite on_session_some by exact H.
    assert ((Session.close s).1 = inr CloseResponse.mk) as ->
      by (destruct s as [ps [sh|]]; reflexivity).
    unfold bind, get, put, ret. simpl. by rewrite delete_insert_eq. }
  rewrite Hc. simpl. split; [reflexivity |]. split; [|split].
  - intros a <-. unfold Runtime.run.
    rewrite on_session_none; [reflexivity |]. simpl. apply lookup_delete_eq.
  - intros spawned. rewrite create_shell_fresh; [reflexivity |].
    simpl. apply lookup_delete_eq.
  - intros other Hne. by apply lookup_delete_ne.
Qed.

Lemma runtime_close_removes_the_session_witness :
  Runtime.close (CloseRequest.mk "main") Scenario.registry_failed_start
  = (inr CloseResponse.mk,
     Runtime.mk (delete "main" (Runtime.sessions Scenario.registry_failed_start))).
Proof.
  apply (runtime_close_removes_the_session "main"
           Scenario.registry_failed_start Scenario.failed_start).
  vm_compute. reflexivity.
Defined.

(** Closing a name that is not registered raises [KeyError]; the registry
    is left as it was. *)
Theorem runtime_close_of_unknown_name_raises (name : string) (rt : Runtime.t) :
  Runtime.sessions rt !! name = None →
  Runtime.close (CloseRequest.mk name) rt = (inl (Exc KeyError name), rt).
Proof.
  intros H. unfold Runtime.close, bind at 1. simpl.
  by rewrite on_session_none.
Qed.

Lemma runtime_close_of_unknown_name_raises_witness :
  Runtime.close (CloseRequest.mk "main") Runtime.__init__
  = (inl (Exc KeyError "main"), Runtime.__init__).
Proof.
  apply (runtime_close_of_unknown_name_raises "main" Runtime.__init__).
  reflexivity.
Defined.

(** ** RemoteRuntime: construction *)

(** The host kept by the client always starts with "http": a host given
    with a scheme is kept as it is, any other gets "http://" in front.
    Building a client from the host of a client changes nothing. *)
Theorem init_gives_the_host_a_scheme (host : string) (port : Z) :
  String.prefix "http" (RemoteRuntime.host (RemoteRuntime.__init__ host port))
  = true
  ∧ RemoteRuntime.port (RemoteRuntime.__init__ host port) = port
  ∧ (String.prefix "http" host = true →
     RemoteRuntime.host (RemoteRuntime.__init__ host port) = host)
  ∧ (String.prefix "http" host = false →
     RemoteRuntime.host (RemoteRuntime.__init__ host port) = "http://" +:+ host)
  ∧ RemoteRuntime.__init__
      (RemoteRuntime.host (RemoteRuntime.__init__ host port)) port
    = RemoteRuntime.__init__ host port.
Proof.
  unfold RemoteRuntime.__init__. simpl RemoteRuntime.host. simpl RemoteRuntime.port.
  destruct (String.prefix "http" host) eqn:H.
  - rewrite H. repeat split; done.
  - assert (Hp : String.prefix "http" ("http://" +:+ host) = true) by reflexivity.
    rewrite Hp. repeat split; done.
Qed.

Lemma init_gives_the_host_a_scheme_witness :
  RemoteRuntime.host (RemoteRuntime.__init__ "localhost" 8000)
  = "http://" +:+ "localhost".
Proof.
  apply (init_gives_the_host_a_scheme "localhost" 8000). reflexivity.
Defined.

(** ** RemoteRuntime: the check of a response *)

(** The cases of [_handle_response_errors], by status. *)
Lemma handle_response_errors_cases
    (self : RemoteRuntime.t) (response : requests.Response) (w : World) :
  let status := requests.status_code response in
  ((status < 400 ∨ 600 ≤ status)%Z →
     RemoteRuntime._handle_response_errors self response w = (inr tt, w))
  ∧ ((400 ≤ status < 600)%Z → status ≠ 511%Z →
     RemoteRuntime._handle_response_errors self response w =
       (inl (Exc requests.HTTPError (pretty status)), w))
  ∧ (status = 511%Z →
     RemoteRuntime._handle_response_errors self response w =
       match requests.as_ExceptionTransfer response with
       | inl e => (inl e, w)
       | inr t => RemoteRuntime._handle_transfer_exception self t w
       end
     ∧ ∃ e, RemoteRuntime._handle_response_errors self response w = (inl e, w)).
Proof.
  intros status. unfold RemoteRuntime._handle_response_errors, raise_for_status.
  fold status. split; [|split].
  - intros H. assert ((status =? 511)%Z = false) as -> by lia.
    assert (((400 <=? status) && (status <? 600))%Z = false) as -> by lia.
    reflexivity.
  - intros H Hne. assert ((status =? 511)%Z = false) as -> by lia.
    assert (((400 <=? status) && (status <? 600))%Z = true) as -> by lia.
    reflexivity.
  - intros H. rewrite H. simpl Z.eqb. cbv iota. unfold bind, lift.
    destruct (requests.as_ExceptionTransfer response) as [e|t];
      [split; [reflexivity | eauto] |].
    destruct (handle_transfer_exception_raises self t w) as [e He].
    rewrite He. split; [reflexivity | eauto].
Qed.

(** [_handle_response_errors] by status: outside 400..599 it returns; on
    511 it raises what the envelope gives, never the HTTP error; on every
    other status from 400 to 599 it raises [HTTPError].  The world is not
    touched. *)
Theorem handle_response_errors_by_status
    (self : RemoteRuntime.t) (response : requests.Response) (w : World) :
  let status := requests.status_code response in
  ((status < 400 ∨ 600 ≤ status)%Z →
     RemoteRuntime._handle_response_errors self response w = (inr tt, w))
  ∧ ((400 ≤ status < 600)%Z → status ≠ 511%Z →
     RemoteRuntime._handle_response_errors self response w =
       (inl (Exc requests.HTTPError (pretty status)), w))
  ∧ (status = 511%Z →
     RemoteRuntime._handle_response_errors self response w =
       match requests.as_ExceptionTransfer response with
       | inl e => (inl e, w)
       | inr t => RemoteRuntime._handle_transfer_exception self t w
       end
     ∧ ∃ e, RemoteRuntime._handle_response_errors self response w = (inl e, w)).
Proof. apply handle_response_errors_cases. Qed.

Lemma handle_response_errors_by_status_witness :
  RemoteRuntime._handle_response_errors RemoteScenario.client
    (EndpointScenario.answer 404) (RemoteScenario.world [])
  = (inl (Exc requests.HTTPError "404"), RemoteScenario.world []).
Proof.
  destruct (handle_response_errors_by_status RemoteScenario.client
              (EndpointScenario.answer 404) (RemoteScenario.world []))
    as (_ & H & _).
  apply H; [simpl; lia | discriminate].
Defined.

(** ** RemoteRuntime: error reconstruction *)

Lemma rpartition_dot_no_dot (s : string) :
  no_dot s = true → rpartition_dot s = None.
Proof.
  induction s as [|c s IH]; [done |]. simpl.
  intros [Hc Hs]%andb_true_iff. rewrite (IH Hs).
  by destruct (Ascii.eqb c (Ascii.ascii_of_nat 46)).
Qed.

Lemma rpartition_dotted (module name : string) :
  no_dot name = true →
  rpartition (module +:+ "." +:+ name) = (module, ".", name).
Proof.
  intros Hn. unfold rpartition.
  assert (rpartition_dot (module +:+ "." +:+ name) = Some (module, name)) as ->;
    [|reflexivity].
  induction module as [|c module IH].
  - change ("" +:+ "." +:+ name) with (String (Ascii.ascii_of_nat 46) name).
    simpl. by rewrite rpartition_dot_no_dot.
  - change (String c module +:+ "." +:+ name)
      with (String c (module +:+ "." +:+ name)).
    simpl. by rewrite IH.
Qed.

(** A transported failure whose identifier is "module.Name", with the
    module imported and [Name] an exception class in it, is raised as an
    instance of that class carrying the message; the world is untouched. *)
Theorem transported_failure_is_raised_as_its_class
    (self : RemoteRuntime.t) (w : World) (message module name traceback : string)
    (m : gmap string pyobj) (c : exc_class) :
  no_dot name = true →
  modules w !! module = Some m →
  m !! name = Some (PyExceptionClass c) →
  RemoteRuntime._handle_transfer_exception self
    (ExceptionTransfer.mk message (module +:+ "." +:+ name) traceback) w
  = (inl (Exc c message), w).
Proof.
  intros Hn Hm Hc.
  erewrite transfer_resolved; [reflexivity | | exact Hm | exact Hc].
  simpl. by apply rpartition_dotted.
Qed.

Lemma transported_failure_is_raised_as_its_class_witness :
  RemoteRuntime._handle_transfer_exception RemoteScenario.client
    (ExceptionTransfer.mk "bad value" ("builtins" +:+ "." +:+ "ValueError") "")
    (RemoteScenario.world [])
  = (inl (Exc RemoteScenario.ValueError "bad value"), RemoteScenario.world []).
Proof.
  apply (transported_failure_is_raised_as_its_class RemoteScenario.client
           (RemoteScenario.world []) "bad value" "builtins" "ValueError" ""
           (<["ValueError" := PyExceptionClass RemoteScenario.ValueError]>
              (<["KeyboardInterrupt" := PyExceptionClass KeyboardInterrupt]> ∅))
           RemoteScenario.ValueError);
    vm_compute; reflexivity.
Defined.

(** With the module imported but no such name in it, the generic
    [SweRexception] is raised, carrying the message. *)
Theorem transported_failure_of_unknown_name_is_generic
    (self : RemoteRuntime.t) (w : World) (message module name traceback : string)
    (m : gmap string pyobj) :
  no_dot name = true →
  modules w !! module = Some m →
  m !! name = None →
  RemoteRuntime._handle_transfer_exception self
    (ExceptionTransfer.mk message (module +:+ "." +:+ name) traceback) w
  = (inl (Exc SweRexception message), w).
Proof.
  intros Hn Hm Hc.
  erewrite transfer_unknown_attribute; [reflexivity | | exact Hm | exact Hc].
  simpl. by apply rpartition_dotted.
Qed.

Lemma transported_failure_of_unknown_name_is_generic_witness :
  RemoteRuntime._handle_transfer_exception RemoteScenario.client
    (ExceptionTransfer.mk "boom" ("builtins" +:+ "." +:+ "RemoteError") "")
    (RemoteScenario.world [])
  = (inl (Exc SweRexception "boom"), RemoteScenario.world []).
Proof.
  apply (transported_failure_of_unknown_name_is_generic RemoteScenario.client
           (RemoteScenario.world []) "boom" "builtins" "RemoteError" ""
           (<["ValueError" := PyExceptionClass RemoteScenario.ValueError]>
              (<["KeyboardInterrupt" := PyExceptionClass KeyboardInterrupt]> ∅)));
    vm_compute; reflexivity.
Defined.

(** An identifier without a dot names no module: the lookup of the empty
    module name in [sys.modules] fails and [KeyError] is raised, whatever
    is imported under other names. *)
Theorem transported_failure_without_dot_raises_KeyError
    (self : RemoteRuntime.t) (w : World) (message name traceback : string) :
  no_dot name = true →
  modules w !! "" = None →
  RemoteRuntime._handle_transfer_exception self
    (ExceptionTransfer.mk message name traceback) w
  = (inl (Exc KeyError ""), w).
Proof.
  intros Hn Hm.
  erewrite transfer_unknown_module; [reflexivity | | exact Hm].
  simpl. unfold rpartition. by rewrite rpartition_dot_no_dot.
Qed.

Lemma transported_failure_without_dot_raises_KeyError_witness :
  RemoteRuntime._handle_transfer_exception RemoteScenario.client
    (ExceptionTransfer.mk "boom" "ValueError" "") (RemoteScenario.world [])
  = (inl (Exc KeyError ""), RemoteScenario.world []).
Proof.
  apply (transported_failure_without_dot_raises_KeyError RemoteScenario.client
           (RemoteScenario.world []) "boom" "ValueError" "");
    vm_compute; reflexivity.
Defined.

(** ** RemoteRuntime: liveness *)

Lemma is_alive_state (self : RemoteRuntime.t) timeout (w : World) :
  ∃ r,
    RemoteRuntime.is_alive self timeout w =
      (r, mkWorld (modules w) (fs w) (tempnames w) (archive_fault w)
            (tail (replies w))
            (trace w ++ [Sent (requests.Get
                                 (RemoteRuntime._api_url self +:+ "/is_alive")
                                 timeout)])).
Proof.
  set (w1 := mkWorld (modules w) (fs w) (tempnames w) (archive_fault w)
               (tail (replies w))
               (trace w ++ [Sent (requests.Get
                                    (RemoteRuntime._api_url self +:+ "/is_alive")
                                    timeout)])).
  assert (∃ r, attempt
      (response <- round_trip
                     (requests.Get (RemoteRuntime._api_url self +:+ "/is_alive")
                        timeout) ;;
       if (requests.status_code response =? 200)%Z
       then lift (requests.as_IsAliveResponse response)
       else
         (if (requests.status_code response =? 511)%Z
          then
            exc_transfer <- lift (requests.as_ExceptionTransfer response) ;;
            RemoteRuntime._handle_transfer_exception self exc_transfer
          else ret tt) ;;;
         message <- lift (requests.get_message response) ;;
         ret (IsAliveResponse.mk false
                ("Status code " +:+ pretty (requests.status_code response)
                 +:+ " from " +:+ RemoteRuntime._api_url self +:+ "/is_alive. "
                 +:+ "Message: " +:+ message))) w = (inr r, w1)) as [r Hr].
  { unfold attempt, bind at 1, round_trip.
    subst w1.
    destruct (replies w) as [|[e|response] rest]; simpl; [eauto | eauto |].
    destruct (requests.status_code response =? 200)%Z.
    { unfold lift. eauto. }
    unfold bind at 1.
    destruct (requests.status_code response =? 511)%Z.
    - unfold bind at 1, lift at 1.
      destruct (requests.as_ExceptionTransfer response) as [e|t]; [eauto |].
      match goal with
      | |- context [RemoteRuntime._handle_transfer_exception self t ?w0] =>
          destruct (handle_transfer_exception_raises self t w0) as [e ->]
      end.
      eauto.
    - unfold ret at 1, bind, lift.
      destruct (requests.get_message response); unfold ret; eauto. }
  rewrite (is_alive_handler self timeout w _ _ Hr).
  destruct r as [e|v]; [|eauto].
  destruct (isinstance e requests.RequestException || isinstance e Exception);
    eauto.
Qed.

(** A liveness probe makes exactly one request, a GET of [/is_alive] with
    the caller's timeout, and uses up one answer of the network; nothing
    else in the world changes, however the probe ends. *)
Theorem is_alive_makes_one_request
    (self : RemoteRuntime.t) (timeout : option Q) (w : World) :
  let w' := (RemoteRuntime.is_alive self timeout w).2 in
  trace w' =
    trace w ++ [Sent (requests.Get (RemoteRuntime._api_url self +:+ "/is_alive")
                        timeout)]
  ∧ replies w' = tail (replies w)
  ∧ fs w' = fs w
  ∧ modules w' = modules w.
Proof.
  destruct (is_alive_state self timeout w) as [r ->]. done.
Qed.

(** On status 200 the decoded answer of the server is the result, and a
    body that cannot be decoded gives a negative result instead of an
    error. *)
Theorem is_alive_returns_the_servers_answer
    (self : RemoteRuntime.t) (timeout : option Q) (w : World)
    (response : requests.Response) (rest : list (exc + requests.Response)) :
  replies w = inr response :: rest →
  requests.status_code response = 200%Z →
  (∀ v, requests.as_IsAliveResponse response = inr v →
        (RemoteRuntime.is_alive self timeout w).1 = inr v)
  ∧ (∀ e, requests.as_IsAliveResponse response = inl e →
          isinstance e Exception = true →
          (RemoteRuntime.is_alive self timeout w).1 =
            inr (IsAliveResponse.mk false (failed_to_connect self e))).
Proof.
  intros Hr Hs. split.
  - intros v Hv. erewrite is_alive_handler.
    2: { unfold attempt, bind, round_trip. rewrite Hr. simpl. rewrite Hs. simpl.
         unfold lift. rewrite Hv. reflexivity. }
    reflexivity.
  - intros e He Hi. erewrite is_alive_handler.
    2: { unfold attempt, bind, round_trip. rewrite Hr. simpl. rewrite Hs. simpl.
         unfold lift. rewrite He. reflexivity. }
    simpl. by rewrite Hi, orb_true_r.
Qed.

Lemma is_alive_returns_the_servers_answer_witness :
  (RemoteRuntime.is_alive RemoteScenario.client None
     (RemoteScenario.world
        [inr (requests.mkResponse 200 (inr (IsAliveResponse.mk true ""))
                RemoteScenario.not_json (inr "None") RemoteScenario.not_json)])).1
  = inr (IsAliveResponse.mk true "").
Proof.
  destruct (is_alive_returns_the_servers_answer RemoteScenario.client None
              (RemoteScenario.world
                 [inr (requests.mkResponse 200 (inr (IsAliveResponse.mk true ""))
                         RemoteScenario.not_json (inr "None")
                         RemoteScenario.not_json)])
              (requests.mkResponse 200 (inr (IsAliveResponse.mk true ""))
                 RemoteScenario.not_json (inr "None") RemoteScenario.not_json)
              [] eq_refl eq_refl) as [H _].
  apply H. reflexivity.
Defined.

(** On any status other than 200 and 511 the probe is negative and its
    message names the status, the address and the server's message. *)
Theorem is_alive_reports_other_statuses
    (self : RemoteRuntime.t) (timeout : option Q) (w : World)
    (response : requests.Response) (rest : list (exc + requests.Response))
    (message : string) :
  replies w = inr response :: rest →
  requests.status_code response ≠ 200%Z →
  requests.status_code response ≠ 511%Z →
  requests.get_message response = inr message →
  (RemoteRuntime.is_alive self timeout w).1 =
    inr (IsAliveResponse.mk false
           ("Status code " +:+ pretty (requests.status_code response)
            +:+ " from " +:+ RemoteRuntime._api_url self +:+ "/is_alive. "
            +:+ "Message: " +:+ message)).
Proof.
  intros Hr H200 H511 Hm. erewrite is_alive_handler.
  2: { unfold attempt, bind at 1, round_trip. rewrite Hr. simpl.
       assert ((requests.status_code response =? 200)%Z = false) as -> by lia.
       assert ((requests.status_code response =? 511)%Z = false) as -> by lia.
       unfold bind, ret, lift. rewrite Hm. reflexivity. }
  reflexivity.
Qed.

Lemma is_alive_reports_other_statuses_witness :
  (RemoteRuntime.is_alive RemoteScenario.client None
     (RemoteScenario.world [inr (EndpointScenario.answer 503)])).1
  = inr (IsAliveResponse.mk false
           ("Status code " +:+ "503" +:+ " from "
            +:+ "http://127.0.0.1:8000" +:+ "/is_alive. "
            +:+ "Message: " +:+ "None")).
Proof.
  apply (is_alive_reports_other_statuses RemoteScenario.client None
           (RemoteScenario.world [inr (EndpointScenario.answer 503)])
           (EndpointScenario.answer 503) [] "None");
    [reflexivity | discriminate | discriminate | reflexivity].
Defined.

Lemma is_alive_raises_only_outside_Exception_witness :
  isinstance (Exc KeyboardInterrupt "stop") Exception = false
  ∧ isinstance (Exc KeyboardInterrupt "stop") requests.RequestException = false.
Proof.
  apply (is_alive_raises_only_outside_Exception RemoteScenario.client None
           (RemoteScenario.world
              [inr (RemoteScenario.envelope "builtins.KeyboardInterrupt" "stop")])
           (RemoteRuntime.is_alive RemoteScenario.client None
              (RemoteScenario.world
                 [inr (RemoteScenario.envelope "builtins.KeyboardInterrupt"
                         "stop")])).2).
  vm_compute. reflexivity.
Defined.

(** ** RemoteRuntime: upload of a directory without a final name *)

(** For a directory whose path has no final name ([Path(".")]), the bundle
    is named [".zip"]; [with_suffix("")] finds no suffix to drop, so the
    archive is written to [".zip.zip"] and the open of [".zip"] fails:
    [upload] raises [FileNotFoundError], nothing is transferred, and the
    temporary directory is removed. *)
Theorem upload_of_nameless_directory_fails
    (self : RemoteRuntime.t) (request : UploadRequest.t) (w : World)
    (temp_dir : path) (rest : list path) :
  is_dir w (UploadRequest.source_path request) = true →
  pathlib.name (UploadRequest.source_path request) = "" →
  tempnames w = temp_dir :: rest →
  fresh (fs w) temp_dir →
  archive_fault w = None →
  ∃ w',
    RemoteRuntime.upload self request w =
      (inl (Exc FileNotFoundError ".zip"), w')
    ∧ fs w' = fs w
    ∧ replies w' = replies w
    ∧ trace w' =
        trace w ++ [Mkdtemp temp_dir;
                    MakeArchive (temp_dir ++ [".zip"])
                      (UploadRequest.source_path request);
                    Rmtree temp_dir].
Proof.
  intros Hdir Hname Htemp Hfresh Hfault.
  rewrite upload_directory by done.
  unfold with_TemporaryDirectory. rewrite Htemp, Hname.
  change ("" +:+ ".zip") with ".zip".
  assert (Hbase : pathlib.with_suffix_empty (pathlib.joinpath temp_dir ".zip")
                  = temp_dir ++ [".zip"])
    by apply (with_suffix_empty_zip temp_dir "").
  rewrite Hbase.
  unfold bind at 1, make_archive, bind at 1, get, bind at 1, emit.
  cbn [archive_fault trace fs modules tempnames replies]. rewrite Hfault.
  unfold set_fs. cbn [archive_fault trace fs modules tempnames replies].
  rewrite removelast_last. unfold pathlib.name at 1. rewrite last_snoc.
  unfold bind at 1, open_rb, pathlib.joinpath.
  cbn [archive_fault trace fs modules tempnames replies default].
  rewrite lookup_insert_ne.
  2: { intros E. apply app_inv_head in E. discriminate. }
  rewrite lookup_insert_ne.
  2: { intros E. apply (f_equal length) in E. rewrite length_app in E.
       simpl in E. lia. }
  rewrite (Hfresh (temp_dir ++ [".zip"])) by (by apply prefix_app_r).
  cbn. unfold pathlib.name. rewrite last_snoc. cbn.
  eexists. split; [reflexivity |]. cbn.
  split; [|split; [reflexivity | by rewrite <- !app_assoc]].
  apply rmtree_restores; [done |].
  intros q Hq. rewrite !lookup_insert_ne; [done | |].
  - intros E. apply Hq. by rewrite <- E.
  - intros E. apply Hq. rewrite <- E. by apply prefix_app_r.
Qed.

Lemma upload_of_nameless_directory_fails_witness :
  ∃ w',
    RemoteRuntime.upload RemoteScenario.client (UploadRequest.mk [] "/srv")
      (mkWorld RemoteScenario.sys_modules (<[[] := Dir]> ∅) [["tmp"; "x1"]]
         None [inr RemoteScenario.ok_upload] [])
    = (inl (Exc FileNotFoundError ".zip"), w')
    ∧ replies w' = [inr RemoteScenario.ok_upload].
Proof.
  destruct (upload_of_nameless_directory_fails RemoteScenario.client
              (UploadRequest.mk [] "/srv")
              (mkWorld RemoteScenario.sys_modules (<[[] := Dir]> ∅)
                 [["tmp"; "x1"]] None [inr RemoteScenario.ok_upload] [])
              ["tmp"; "x1"] [])
    as (w' & Hup & _ & Hrep & _).
  - reflexivity.
  - reflexivity.
  - reflexivity.
  - intros q [k ->]. simpl. rewrite lookup_insert_ne by discriminate.
    apply lookup_empty.
  - reflexivity.
  - exists w'. split; [exact Hup | exact Hrep].
Defined.

(** ** RemoteRuntime: the JSON endpoints *)

Lemma post_json_step {P} (url : string) (payload : P) (w : World)
    (posted : list (json_post P)) :
  post_json url payload (w, posted) =
    (match replies w with
     | reply :: _ => reply
     | [] => inl (Exc requests.ConnectionError "Max retries exceeded")
     end,
     (mkWorld (modules w) (fs w) (tempnames w) (archive_fault w)
        (tail (replies w)) (trace w),
      posted ++ [JsonPost url payload])).
Proof. unfold post_json. by destruct (replies w). Qed.

(** The body shared by the endpoints that check the response with
    [_handle_response_errors]. *)
Lemma checked_post {Req Resp} (decode : requests.Response → exc + Resp)
    (self : RemoteRuntime.t) (route : string) (request : Req) (w : World)
    (posted : list (json_post Req)) :
  let w1 := mkWorld (modules w) (fs w) (tempnames w) (archive_fault w)
              (tail (replies w)) (trace w) in
  (response <- post_json (RemoteRuntime._api_url self +:+ route) request ;;
   on_world (RemoteRuntime._handle_response_errors self response) ;;;
   lift (decode response)) (w, posted) =
    (match replies w with
     | inr response :: _ =>
         match (RemoteRuntime._handle_response_errors self response w1).1 with
         | inl e => inl e
         | inr _ => decode response
         end
     | inl e :: _ => inl e
     | [] => inl (Exc requests.ConnectionError "Max retries exceeded")
     end,
     (w1, posted ++ [JsonPost (RemoteRuntime._api_url self +:+ route) request])).
Proof.
  intros w1. unfold bind at 1. rewrite post_json_step. fold w1.
  destruct (replies w) as [|[e|response] rest]; [reflexivity | reflexivity |].
  unfold bind, on_world, lift.
  destruct (handle_response_errors_state self response w1) as [[e|[]] ->];
    reflexivity.
Qed.

(** [run_in_session] posts the action once to [/run_in_session] and uses up
    one answer.  An answer outside 400..599 is decoded into the result; the
    envelope (511) carrying a class the client knows is raised as that
    class with its message; any other status from 400 to 599 raises
    [HTTPError]; a failed request raises its error.  None of these is
    turned into a result value. *)
Theorem run_in_session_by_answer {Req Resp}
    (decode : requests.Response → exc + Resp) (self : RemoteRuntime.t)
    (action : Req) (w : World) (posted : list (json_post Req)) :
  let out := RemoteEndpoints.run_in_session decode self action (w, posted) in
  out.2.2 =
    posted ++ [JsonPost (RemoteRuntime._api_url self +:+ "/run_in_session")
                 action]
  ∧ replies out.2.1 = tail (replies w)
  ∧ (replies w = [] →
     out.1 = inl (Exc requests.ConnectionError "Max retries exceeded"))
  ∧ (∀ e rest, replies w = inl e :: rest → out.1 = inl e)
  ∧ (∀ response rest,
       replies w = inr response :: rest →
       let status := requests.status_code response in
       ((status < 400 ∨ 600 ≤ status)%Z → out.1 = decode response)
       ∧ ((400 ≤ status < 600)%Z → status ≠ 511%Z →
          out.1 = inl (Exc requests.HTTPError (pretty status)))
       ∧ (∀ message module name traceback m c,
            status = 511%Z →
            requests.as_ExceptionTransfer response =
              inr (ExceptionTransfer.mk message (module +:+ "." +:+ name)
                     traceback) →
            no_dot name = true →
            modules w !! module = Some m →
            m !! name = Some (PyExceptionClass c) →
            out.1 = inl (Exc c message))).
Proof.
  intros out. subst out. unfold RemoteEndpoints.run_in_session.
  rewrite checked_post. cbn [fst snd replies].
  split; [reflexivity |]. split; [reflexivity |].
  split; [by intros -> |]. split; [by intros e rest -> |].
  intros response rest ->. cbv zeta.
  set (status := requests.status_code response).
  set (w1 := mkWorld (modules w) (fs w) (tempnames w) (archive_fault w)
               (tail (inr response :: rest)) (trace w)).
  destruct (handle_response_errors_cases self response w1) as (H1 & H2 & H3).
  fold status in H1, H2, H3. split; [|split].
  - intros Hs. by rewrite (H1 Hs).
  - intros Hs Hne. by rewrite (H2 Hs Hne).
  - intros message module name traceback m c Hs Ht Hn Hm Hc.
    destruct (H3 Hs) as [-> _]. rewrite Ht.
    by erewrite transfer_resolved;
      [| apply rpartition_dotted | exact Hm | exact Hc].
Qed.

Lemma run_in_session_by_answer_witness :
  (RemoteEndpoints.run_in_session
     (EndpointScenario.accept (Observation.mk "" "0" "" ""))
     RemoteScenario.client (Scenario.action "ls")
     (RemoteScenario.world
        [inr (RemoteScenario.envelope ("builtins" +:+ "." +:+ "ValueError")
                "bad value")], [])).1
  = inl (Exc RemoteScenario.ValueError "bad value").
Proof.
  destruct (run_in_session_by_answer
              (EndpointScenario.accept (Observation.mk "" "0" "" ""))
              RemoteScenario.client (Scenario.action "ls")
              (RemoteScenario.world
                 [inr (RemoteScenario.envelope
                         ("builtins" +:+ "." +:+ "ValueError") "bad value")])
              []) as (_ & _ & _ & _ & H).
  destruct (H (RemoteScenario.envelope ("builtins" +:+ "." +:+ "ValueError")
                 "bad value") [] eq_refl) as (_ & _ & H3).
  apply (H3 "bad value" "builtins" "ValueError" ""
           (<["ValueError" := PyExceptionClass RemoteScenario.ValueError]>
              (<["KeyboardInterrupt" := PyExceptionClass KeyboardInterrupt]> ∅))
           RemoteScenario.ValueError);
    vm_compute; reflexivity.
Defined.

Lemma create_session_step {Req Resp}
    (decode : requests.Response → exc + Resp) (self : RemoteRuntime.t)
    (request : Req) (w : World) (posted : list (json_post Req))
    (response : requests.Response) (rest : list (exc + requests.Response)) :
  replies w = inr response :: rest →
  RemoteEndpoints.create_session decode self request (w, posted) =
    (if ((400 <=? requests.status_code response)
         && (requests.status_code response <? 600))%Z
     then inl (Exc requests.HTTPError (pretty (requests.status_code response)))
     else decode response,
     (mkWorld (modules w) (fs w) (tempnames w) (archive_fault w) rest (trace w),
      posted ++ [JsonPost (RemoteRuntime._api_url self +:+ "/create_session")
                   request])).
Proof.
  intros Hr. unfold RemoteEndpoints.create_session.
  unfold bind at 1. rewrite post_json_step, Hr.
  unfold bind, on_world, raise_for_status, lift.
  destruct ((400 <=? requests.status_code response)
            && (requests.status_code response <? 600))%Z; reflexivity.
Qed.

(** [create_session] checks the status only: the envelope (511) is not
    reconstructed there, and the caller gets [HTTPError] whatever error the
    server transported. *)
Theorem create_session_does_not_reconstruct {Req Resp}
    (decode : requests.Response → exc + Resp) (self : RemoteRuntime.t)
    (request : Req) (w : World) (posted : list (json_post Req))
    (response : requests.Response) (rest : list (exc + requests.Response)) :
  replies w = inr response :: rest →
  let out := RemoteEndpoints.create_session decode self request (w, posted) in
  ((400 ≤ requests.status_code response < 600)%Z →
   out.1 = inl (Exc requests.HTTPError (pretty (requests.status_code response))))
  ∧ (requests.status_code response = 511%Z →
     out.1 = inl (Exc requests.HTTPError "511"))
  ∧ ((requests.status_code response < 400
      ∨ 600 ≤ requests.status_code response)%Z →
     out.1 = decode response)
  ∧ out.2.2 =
      posted ++ [JsonPost (RemoteRuntime._api_url self +:+ "/create_session")
                   request].
Proof.
  intros Hr out. subst out. rewrite (create_session_step _ _ _ _ _ _ _ Hr).
  cbn [fst snd].
  split; [|split; [|split]]; [| | |reflexivity].
  - intros Hs.
    assert (((400 <=? requests.status_code response)
             && (requests.status_code response <? 600))%Z = true) as HH by lia.
    by rewrite HH.
  - intros Hs. rewrite Hs. reflexivity.
  - intros Hs.
    assert (((400 <=? requests.status_code response)
             && (requests.status_code response <? 600))%Z = false) as HH by lia.
    by rewrite HH.
Qed.

Lemma create_session_does_not_reconstruct_witness :
  (RemoteEndpoints.create_session
     (EndpointScenario.accept (CreateShellResponse.mk true "" ""))
     RemoteScenario.client (CreateShellRequest.mk "main")
     (RemoteScenario.world
        [inr (RemoteScenario.envelope ("builtins" +:+ "." +:+ "ValueError")
                "bad value")], [])).1
  = inl (Exc requests.HTTPError "511").
Proof.
  destruct (create_session_does_not_reconstruct
              (EndpointScenario.accept (CreateShellResponse.mk true "" ""))
              RemoteScenario.client (CreateShellRequest.mk "main")
              (RemoteScenario.world
                 [inr (RemoteScenario.envelope
                         ("builtins" +:+ "." +:+ "ValueError") "bad value")])
              []
              (RemoteScenario.envelope ("builtins" +:+ "." +:+ "ValueError")
                 "bad value") [] eq_refl) as (_ & H & _).
  apply H. reflexivity.
Defined.

(** [close_session], [execute], [read_file] and [write_file] treat the
    answer exactly as [run_in_session] does: on one and the same wire each
    of them returns what [run_in_session] returns and leaves the same
    world, after one post of the request to its own route. *)
Theorem checked_endpoints_agree {Req Resp}
    (decode : requests.Response → exc + Resp) (self : RemoteRuntime.t)
    (request : Req) (w : World) (posted : list (json_post Req)) :
  let reference :=
    RemoteEndpoints.run_in_session decode self request (w, posted) in
  let agrees (route : string)
             (out : (exc + Resp) * (World * list (json_post Req))) :=
    out.1 = reference.1 ∧ out.2.1 = reference.2.1
    ∧ out.2.2 = posted ++ [JsonPost (RemoteRuntime._api_url self +:+ route)
                             request] in
  agrees "/close_session"
    (RemoteEndpoints.close_session decode self request (w, posted))
  ∧ agrees "/execute" (RemoteEndpoints.execute decode self request (w, posted))
  ∧ agrees "/read_file"
      (RemoteEndpoints.read_file decode self request (w, posted))
  ∧ agrees "/write_file"
      (RemoteEndpoints.write_file decode self request (w, posted)).
Proof.
  intros reference agrees. subst reference agrees.
  unfold RemoteEndpoints.run_in_session, RemoteEndpoints.close_session,
    RemoteEndpoints.execute, RemoteEndpoints.read_file,
    RemoteEndpoints.write_file.
  rewrite !checked_post. cbn [fst snd]. done.
Qed.

(** [close] returns nothing on an answer outside 400..599 and raises on
    every other one, after one post to [/close]; a failed request raises
    its error. *)
Theorem close_by_answer (self : RemoteRuntime.t) (w : World)
    (posted : list (json_post unit)) :
  let out := RemoteEndpoints.close self (w, posted) in
  out.2.2 = posted ++ [JsonPost (RemoteRuntime._api_url self +:+ "/close") tt]
  ∧ replies out.2.1 = tail (replies w)
  ∧ (replies w = [] →
     out.1 = inl (Exc requests.ConnectionError "Max retries exceeded"))
  ∧ (∀ response rest,
       replies w = inr response :: rest →
       ((requests.status_code response < 400
         ∨ 600 ≤ requests.status_code response)%Z → out.1 = inr tt)
       ∧ ((400 ≤ requests.status_code response < 600)%Z → ∃ e, out.1 = inl e)).
Proof.
  intros out. subst out. unfold RemoteEndpoints.close.
  unfold bind. rewrite post_json_step.
  destruct (replies w) as [|[e|response] rest] eqn:Hr.
  - cbn. repeat split; try done.
  - cbn. repeat split; try done.
  - unfold on_world.
    set (w1 := mkWorld (modules w) (fs w) (tempnames w) (archive_fault w)
                 (tail (inr response :: rest)) (trace w)).
    destruct (handle_response_errors_cases self response w1) as (H1 & H2 & H3).
    destruct (handle_response_errors_state self response w1) as [r Hst].
    rewrite Hst. cbn [fst snd replies].
    split; [reflexivity |]. split; [reflexivity |]. split; [done |].
    intros response' rest' [= <- <-]. split.
    + intros Hs. rewrite (H1 Hs) in Hst. by injection Hst as <-.
    + intros Hs. destruct (decide (requests.status_code response = 511%Z)) as [E|E].
      * destruct (H3 E) as [_ [e He]]. rewrite He in Hst.
        injection Hst as <-. eauto.
      * rewrite (H2 Hs E) in Hst. injection Hst as <-. eauto.
Qed.

Lemma close_by_answer_witness :
  (RemoteEndpoints.close RemoteScenario.client
     (RemoteScenario.world [inr (EndpointScenario.answer 200)], [])).1 = inr tt.
Proof.
  destruct (close_by_answer RemoteScenario.client
              (RemoteScenario.world [inr (EndpointScenario.answer 200)]) [])
    as (_ & _ & _ & H).
  destruct (H (EndpointScenario.answer 200) [] eq_refl) as [H1 _].
  apply H1. simpl. lia.
Defined.

(** ** Session.run: a normal command *)

(** A normal command whose wait matched and whose exit status exchange was
    answered with a non-blank text returns the text captured before the
    match as output, the stripped status text as exit code, no failure
    reason and the pattern that matched; the shell was sent the command and
    then the status query, each followed by one wait. *)
Theorem run_normal_command_returns_output_and_status
    (a : Action.t) (s : Session.t) (sh : pexpect.spawn)
    i out j code rest pat :
  Session.shell s = Some sh →
  pexpect.pending sh =
    pexpect.Matched i out :: pexpect.Matched j code :: rest →
  expect_strings a s !! i = Some pat →
  is_normal a = true →
  blank_status code = false →
  ∃ s',
    Session.run a s = (inr (Observation.mk out (strip code) "" pat), s')
    ∧ pending_of s' = rest
    ∧ log_of s' =
        pexpect.log sh ++
          [pexpect.Sendline (Action.command a);
           pexpect.Expect (expect_strings a s) (Action.timeout a);
           pexpect.Sendline (nl +:+ "echo $?");
           pexpect.Expect [Session._ps1 s] Session.timeout_1].
Proof.
  intros Hs Hp Hi Hn Hb. rewrite (session_eta s sh Hs), Hp.
  unfold expect_strings in *.
  erewrite run_normal by eassumption.
  eexists; split; [reflexivity |]. split; [reflexivity |].
  unfold log_of; simpl. norm_log.
Qed.

Lemma run_normal_command_returns_output_and_status_witness :
  (Session.run (Scenario.action "echo hi")
     (Scenario.started [pexpect.Matched 0 ("hi" +:+ nl);
                        pexpect.Matched 0 (nl +:+ "0" +:+ nl)])).1
  = inr (Observation.mk ("hi" +:+ nl) "0" "" "SHELLPS1PREFIX").
Proof.
  destruct (run_normal_command_returns_output_and_status
              (Scenario.action "echo hi")
              (Scenario.started [pexpect.Matched 0 ("hi" +:+ nl);
                                 pexpect.Matched 0 (nl +:+ "0" +:+ nl)])
              (pexpect.Spawn
                 [pexpect.Sendline "echo 'fully_initialized'";
                  pexpect.Expect ["fully_initialized"] Session.timeout_1;
                  pexpect.Sendline
                    "umask 002; export PS1='SHELLPS1PREFIX'; export PS2=''";
                  pexpect.Expect ["SHELLPS1PREFIX"] Session.timeout_1]
                 [pexpect.Matched 0 ("hi" +:+ nl);
                  pexpect.Matched 0 (nl +:+ "0" +:+ nl)]
                 (Some ""))
              0 ("hi" +:+ nl) 0 (nl +:+ "0" +:+ nl) [] "SHELLPS1PREFIX"
              eq_refl eq_refl eq_refl eq_refl eq_refl) as (s' & Hrun & _).
  rewrite Hrun. reflexivity.
Defined.

Lemma run_exit_code_timeout_witness :
  (Session.run (Scenario.action "echo hi")
     (Scenario.started [pexpect.Matched 0 "hi"])).1
  = inr (Observation.mk "" "-200" "timeout while getting exit code" "").
Proof.
  apply (run_exit_code_timeout (Scenario.action "echo hi")
           (Scenario.started [pexpect.Matched 0 "hi"])
           (pexpect.Spawn
              [pexpect.Sendline "echo 'fully_initialized'";
               pexpect.Expect ["fully_initialized"] Session.timeout_1;
               pexpect.Sendline
                 "umask 002; export PS1='SHELLPS1PREFIX'; export PS2=''";
               pexpect.Expect ["SHELLPS1PREFIX"] Session.timeout_1]
              [pexpect.Matched 0 "hi"] (Some ""))
           0 "hi" [] "SHELLPS1PREFIX");
    reflexivity.
Defined.

Lemma run_retries_once_witness :
  ∃ s',
    Session.run (Scenario.action "echo hi")
      (Scenario.started [pexpect.Matched 0 "hi"; pexpect.Matched 0 "";
                         pexpect.Matched 0 "0"])
    = (inr (Observation.mk "hi" "0" "" "SHELLPS1PREFIX"), s')
    ∧ pending_of s' = [].
Proof.
  destruct (run_retries_once (Scenario.action "echo hi")
              (Scenario.started [pexpect.Matched 0 "hi"; pexpect.Matched 0 "";
                                 pexpect.Matched 0 "0"])
              (pexpect.Spawn
                 [pexpect.Sendline "echo 'fully_initialized'";
                  pexpect.Expect ["fully_initialized"] Session.timeout_1;
                  pexpect.Sendline
                    "umask 002; export PS1='SHELLPS1PREFIX'; export PS2=''";
                  pexpect.Expect ["SHELLPS1PREFIX"] Session.timeout_1]
                 [pexpect.Matched 0 "hi"; pexpect.Matched 0 "";
                  pexpect.Matched 0 "0"]
                 (Some ""))
              0 "hi" 0 "" 0 "0" [] "SHELLPS1PREFIX"
              eq_refl eq_refl eq_refl eq_refl eq_refl)
    as (s' & Hrun & _ & Hpend).
  exists s'. split; [exact Hrun | exact Hpend].
Defined.
